(** * The ai-agent example scripts, embedded and verified

    The repository holds four Python scripts (basic_agent,
    agent_with_tools, agent_with_guardrails, agent_with_handoffs) that
    configure an Azure OpenAI client, declare agents and print what the
    agent runtime returns.  Python strings are byte strings here (UTF-8),
    the process environment is a finite map, exceptions are an explicit
    outcome, and standard output is the list of the lines printed so far.
    What the scripts call but do not define (the builtin [eval], the
    library's [Runner.run], the constructor of the client) is a section
    variable.  [AsyncAzureOpenAI], [OpenAIChatCompletionsModel] and
    [Agent] are the records of the keyword arguments the scripts pass;
    [GuardrailFunctionOutput] is the library's dataclass, with the two
    fields it declares. *)

From Stdlib Require Import ZArith Ascii String List.
From stdpp Require Import gmap strings pretty.

(** ** Python outcomes: a value or a raised exception *)

(** The exception classes the scripts can meet: the agent library's
    tripwire, builtin ones and the client library's [OpenAIError].  The last three are derived from
    [BaseException] only, so [except Exception] lets them through. *)
Inductive exc_class : Set :=
| InputGuardrailTripwireTriggered
| SyntaxError
| ZeroDivisionError
| NameError
| TypeError
| ValueError
| AttributeError
| KeyError
| RuntimeError
| OpenAIError
| SystemExit
| KeyboardInterrupt
| CancelledError.

(** An exception object, as far as the scripts look at it: its class and
    the text of [str(e)], for the builtin and library classes, whose
    [__str__] returns. *)
Record exception : Set := Exc { exc_type : exc_class; exc_str : string }.

(** [isinstance(e, Exception)] *)
Definition isinstance_Exception (e : exception) : bool :=
  match exc_type e with
  | SystemExit | KeyboardInterrupt | CancelledError => false
  | _ => true
  end.

Inductive outcome (A : Type) : Type :=
| Returned (a : A)
| Raised (e : exception).
Arguments Returned {A} a.
Arguments Raised {A} e.

#[global] Instance outcome_ret : MRet outcome := fun A a => Returned a.
#[global] Instance outcome_bind : MBind outcome := fun A B f m =>
  match m with
  | Returned a => f a
  | Raised e => Raised e
  end.

(** [try: body  except Exception as e: handler(e)] *)
Definition try_except {A : Type} (body : outcome A)
    (handler : exception -> outcome A) : outcome A :=
  match body with
  | Returned a => Returned a
  | Raised e => if isinstance_Exception e then handler e else Raised e
  end.

(** ** Standard output *)

(** A computation that prints: it extends the lines printed so far and
    ends normally or with an exception. *)
Definition io (A : Type) : Type := list string -> list string * outcome A.

#[global] Instance io_ret : MRet io := fun A a out => (out, Returned a).
#[global] Instance io_bind : MBind io := fun A B f m out =>
  match m out with
  | (out', Returned a) => f a out'
  | (out', Raised e) => (out', Raised e)
  end.

(** [print(line)] *)
Definition print (line : string) : io unit :=
  fun out => (out ++ [line], Returned tt).

(** An awaited call that does not print. *)
Definition await {A : Type} (call : outcome A) : io A :=
  fun out => (out, call).

(** [try: body  except Exception as e: handler(e)] around printing code:
    what the body printed before it raised stays printed. *)
Definition io_try_except {A : Type} (body : io A)
    (handler : exception -> io A) : io A :=
  fun out =>
    match body out with
    | (out', Returned a) => (out', Returned a)
    | (out', Raised e) =>
        if isinstance_Exception e then handler e out' else (out', Raised e)
    end.

(** [for x in xs: body(x)] *)
Fixpoint for_each {A : Type} (xs : list A) (body : A -> io unit) : io unit :=
  match xs with
  | [] => mret tt
  | x :: xs' => _ ← body x; for_each xs' body
  end.

(** ** Strings *)

(** The newline character that starts the scripts' [f"\nUser: ..."] lines. *)
Definition LF : string := String "010"%char "".

(** Python's [needle in haystack] on strings. *)
Definition contains (haystack needle : string) : Prop :=
  exists prefix suffix, haystack = prefix +:+ needle +:+ suffix.

(** [str(n)] of an integer: its decimal digits, with a minus sign when
    negative. *)
Definition str_int (z : Z) : string := pretty z.

(** ** Environment and model client (all four scripts) *)

(** [os.getenv(key, default)], with [default=None] when it is left out.
    [environ] is the process environment once [load_dotenv()] has run. *)
Definition os_getenv (environ : gmap string string) (key : string)
    (default : option string) : option string :=
  match environ !! key with
  | Some v => Some v
  | None => default
  end.

(** The keyword arguments [AsyncAzureOpenAI] is built from. *)
Record AsyncAzureOpenAI : Set := mkAsyncAzureOpenAI {
  api_key : option string;
  api_version : option string;
  azure_endpoint : option string
}.

(** The keyword arguments [OpenAIChatCompletionsModel] is built from. *)
Record OpenAIChatCompletionsModel : Set := mkOpenAIChatCompletionsModel {
  model : option string;
  openai_client : AsyncAzureOpenAI
}.

(** The tools, guardrails and output types a script can attach to an
    agent, by the name of the Python object. *)
Inductive tool_name : Set := Tool_fetch_weather | Tool_search_web | Tool_calculate.
Inductive guardrail_name : Set := Guard_content_safety | Guard_homework.
Inductive output_type_name : Set := Type_ContentSafetyOutput | Type_HomeworkOutput.

(** [Agent(...)]: the keyword arguments of the four scripts; an argument a
    script leaves out has the library's default ([None] or the empty
    list). *)
#[warnings="-register-all"]
Inductive Agent : Set := mkAgent {
  name : string;
  handoff_description : option string;
  instructions : string;
  output_type : option output_type_name;
  agent_model : OpenAIChatCompletionsModel;
  tools : list tool_name;
  input_guardrails : list guardrail_name;
  handoffs : list Agent
}.

(** The result of a run, as far as the scripts read it.  [handoff_history]
    is [None] when the result object has no such attribute. *)
Record Handoff : Set := mkHandoff { from_agent : Agent; to_agent : Agent }.

Record RunResult (T : Type) : Type := mkRunResult {
  final_output : T;
  handoff_history : option (list Handoff)
}.
Arguments mkRunResult {T} final_output handoff_history.
Arguments final_output {T} r.
Arguments handoff_history {T} r.

(** ** The arithmetic fragment of Python expressions

    [calculate] hands its argument to the builtin [eval].  The builtin is
    not code of the repository; what is modelled of it is the language's
    integer arithmetic: decimal literals, unary [+ -], binary
    [+ - * // %] and parentheses, on sources of at most
    [max_source_length] characters, which keeps every expression far from
    the interpreter's limits on nesting, recursion and integer size.
    True division and powers give floats and are left out. *)
Module PyArith.

Inductive token : Set :=
| NUMBER (z : Z)
| PLUS | MINUS | STAR | DOUBLESLASH | PERCENT
| LPAR | RPAR.

Inductive lexed : Set :=
| Lexed (toks : list token)
| LexSyntaxError
| LexOutside.

Definition digit_of (c : ascii) : option Z :=
  let n := nat_of_ascii c in
  if (48 <=? n)%nat && (n <=? 57)%nat then Some (Z.of_nat (n - 48)) else None.

(** The value of a literal from its digits, first digit first. *)
Definition literal_value (digits : list Z) : Z :=
  fold_left (fun acc d => 10 * acc + d)%Z digits 0%Z.

(** A decimal literal that starts with 0 is all zeros: [00] is an integer,
    [012] is a syntax error. *)
Definition literal_ok (digits : list Z) : bool :=
  match digits with
  | 0%Z :: rest => forallb (Z.eqb 0) rest
  | _ => true
  end.

Definition push (t : token) (r : lexed) : lexed :=
  match r with
  | Lexed toks => Lexed (t :: toks)
  | other => other
  end.

(** Close the literal whose digits were read (last digit first). *)
Definition flush (cur : list Z) (r : lexed) : lexed :=
  match cur, r with
  | [], _ => r
  | _, Lexed toks =>
      if literal_ok (rev cur) then Lexed (NUMBER (literal_value (rev cur)) :: toks)
      else LexSyntaxError
  | _, other => other
  end.

(** One pass over the source; [cur] holds the digits of the literal being
    read.  A character outside the fragment anywhere makes the whole
    source [LexOutside]. *)
Fixpoint tokenize (source : string) (cur : list Z) : lexed :=
  match source with
  | EmptyString => flush cur (Lexed [])
  | String c rest =>
      match digit_of c with
      | Some d => tokenize rest (d :: cur)
      | None =>
          flush cur
            match c, rest with
            | " "%char, _ | "009"%char, _ => tokenize rest []
            | "+"%char, _ => push PLUS (tokenize rest [])
            | "-"%char, _ => push MINUS (tokenize rest [])
            | "%"%char, _ => push PERCENT (tokenize rest [])
            | "("%char, _ => push LPAR (tokenize rest [])
            | ")"%char, _ => push RPAR (tokenize rest [])
            | "*"%char, String "*"%char _ => LexOutside
            | "*"%char, _ => push STAR (tokenize rest [])
            | "/"%char, String "/"%char rest' => push DOUBLESLASH (tokenize rest' [])
            | _, _ => LexOutside
            end
      end
  end.

(** The syntax tree, with the names of Python's [ast] module. *)
Inductive unaryop : Set := UAdd | USub.
Inductive operator : Set := Add | Sub | Mult | FloorDiv | Mod.
Inductive expr : Set :=
| Constant (value : Z)
| UnaryOp (op : unaryop) (operand : expr)
| BinOp (left : expr) (op : operator) (right : expr).

Inductive parsed : Set :=
| Parsed (e : expr) (rest : list token)
| ParseError
| OutOfFuel.

(** Recursive descent along the grammar rules [sum], [term], [factor] and
    [atom]; binary operators associate to the left, a unary sign binds
    tighter than any binary operator. *)
Fixpoint parse_sum (fuel : nat) (toks : list token) : parsed :=
  match fuel with
  | O => OutOfFuel
  | S fuel' =>
      match parse_term fuel' toks with
      | Parsed e rest => parse_sum_rest fuel' e rest
      | failure => failure
      end
  end
with parse_sum_rest (fuel : nat) (lhs : expr) (toks : list token) : parsed :=
  match fuel with
  | O => OutOfFuel
  | S fuel' =>
      match toks with
      | PLUS :: rest =>
          match parse_term fuel' rest with
          | Parsed e rest' => parse_sum_rest fuel' (BinOp lhs Add e) rest'
          | failure => failure
          end
      | MINUS :: rest =>
          match parse_term fuel' rest with
          | Parsed e rest' => parse_sum_rest fuel' (BinOp lhs Sub e) rest'
          | failure => failure
          end
      | _ => Parsed lhs toks
      end
  end
with parse_term (fuel : nat) (toks : list token) : parsed :=
  match fuel with
  | O => OutOfFuel
  | S fuel' =>
      match parse_factor fuel' toks with
      | Parsed e rest => parse_term_rest fuel' e rest
      | failure => failure
      end
  end
with parse_term_rest (fuel : nat) (lhs : expr) (toks : list token) : parsed :=
  match fuel with
  | O => OutOfFuel
  | S fuel' =>
      match toks with
      | STAR :: rest =>
          match parse_factor fuel' rest with
          | Parsed e rest' => parse_term_rest fuel' (BinOp lhs Mult e) rest'
          | failure => failure
          end
      | DOUBLESLASH :: rest =>
          match parse_factor fuel' rest with
          | Parsed e rest' => parse_term_rest fuel' (BinOp lhs FloorDiv e) rest'
          | failure => failure
          end
      | PERCENT :: rest =>
          match parse_factor fuel' rest with
          | Parsed e rest' => parse_term_rest fuel' (BinOp lhs Mod e) rest'
          | failure => failure
          end
      | _ => Parsed lhs toks
      end
  end
with parse_factor (fuel : nat) (toks : list token) : parsed :=
  match fuel with
  | O => OutOfFuel
  | S fuel' =>
      match toks with
      | PLUS :: rest =>
          match parse_factor fuel' rest with
          | Parsed e rest' => Parsed (UnaryOp UAdd e) rest'
          | failure => failure
          end
      | MINUS :: rest =>
          match parse_factor fuel' rest with
          | Parsed e rest' => Parsed (UnaryOp USub e) rest'
          | failure => failure
          end
      | NUMBER z :: rest => Parsed (Constant z) rest
      | LPAR :: rest =>
          match parse_sum fuel' rest with
          | Parsed e (RPAR :: rest') => Parsed e rest'
          | Parsed _ _ => ParseError
          | failure => failure
          end
      | _ => ParseError
      end
  end.

Definition max_source_length : nat := 100.

Definition is_paren (t : token) : bool :=
  match t with
  | LPAR | RPAR => true
  | _ => false
  end.

(** What the source is to the parser: [Some (Some e)] a tree, [Some None]
    a syntax error, [None] not decided by this fragment.  The fuel covers
    the deepest descent, three calls per token.  Without
    parentheses the tokens have no other reading than the arithmetic one,
    so a failure is a syntax error; with parentheses the full language has
    calls and tuples, and a failure is left undecided. *)
Definition parse_expression (source : string) : option (option expr) :=
  if (max_source_length <? String.length source)%nat then None
  else
    match tokenize source [] with
    | LexOutside => None
    | LexSyntaxError => Some None
    | Lexed toks =>
        match parse_sum (4 * length toks + 4) toks with
        | Parsed e [] => Some (Some e)
        | OutOfFuel => None
        | _ => if existsb is_paren toks then None else Some None
        end
    end.

Inductive arith_outcome : Set :=
| Value (z : Z)
| Raises (c : exc_class).

Definition apply_operator (op : operator) (a b : Z) : arith_outcome :=
  match op with
  | Add => Value (a + b)
  | Sub => Value (a - b)
  | Mult => Value (a * b)
  | FloorDiv => if (b =? 0)%Z then Raises ZeroDivisionError else Value (a `div` b)
  | Mod => if (b =? 0)%Z then Raises ZeroDivisionError else Value (a `mod` b)
  end.

(** Operands are evaluated left to right, then the operator is applied. *)
Fixpoint eval_expr (e : expr) : arith_outcome :=
  match e with
  | Constant z => Value z
  | UnaryOp UAdd operand => eval_expr operand
  | UnaryOp USub operand =>
      match eval_expr operand with
      | Value z => Value (- z)
      | Raises c => Raises c
      end
  | BinOp lhs op rhs =>
      match eval_expr lhs with
      | Value a =>
          match eval_expr rhs with
          | Value b => apply_operator op a b
          | Raises c => Raises c
          end
      | Raises c => Raises c
      end
  end.

(** [eval(source)] on the fragment. *)
Definition arith_eval (source : string) : option arith_outcome :=
  match parse_expression source with
  | Some (Some e) => Some (eval_expr e)
  | Some None => Some (Raises SyntaxError)
  | None => None
  end.

(** A well-formed expression of this fragment: the source parses.  The
    well-formed arithmetic expressions of Python are more (true division,
    powers, floats, longer sources); those are left to [eval]. *)
Definition well_formed (source : string) : Prop :=
  exists e, parse_expression source = Some (Some e).

End PyArith.

(** ** The builtins [eval] and [format] *)

(** A Python object as [calculate] sees it: what formatting it inside an
    f-string does. *)
Record py_object : Type := PyObject { py_format : outcome string }.

(** An [int] of the arithmetic fragment: formatting gives its decimal
    digits. *)
Definition py_int (z : Z) : py_object := PyObject (Returned (str_int z)).

(** The assumption on the builtin [eval]: on the arithmetic fragment it
    follows the language.  The text of an exception is left to the
    interpreter. *)
Definition eval_models_arith (eval : string -> outcome py_object) : Prop :=
  forall source,
    match PyArith.arith_eval source with
    | Some (PyArith.Value z) => eval source = Returned (py_int z)
    | Some (PyArith.Raises c) => exists msg, eval source = Raised (Exc c msg)
    | None => True
    end.

(** One interpreter that satisfies the assumption, with the messages of a
    recent CPython on the fragment; outside the fragment it knows no
    name. *)
Definition reference_eval (source : string) : outcome py_object :=
  match PyArith.arith_eval source with
  | Some (PyArith.Value z) => Returned (py_int z)
  | Some (PyArith.Raises ZeroDivisionError) =>
      Raised (Exc ZeroDivisionError "integer division or modulo by zero")
  | Some (PyArith.Raises c) => Raised (Exc c "invalid syntax (<string>, line 1)")
  | None => Raised (Exc NameError "name is not defined")
  end.

(** [d[key]] on a dict with string keys. *)
Definition subscript (d : gmap string string) (key : string) : outcome string :=
  match d !! key with
  | Some v => Returned v
  | None => Raised (Exc KeyError ("'" +:+ key +:+ "'"))
  end.

(** ** basic_agent.py *)
Module BasicAgent.

Section Main.
Variable environ : gmap string string.
Variable Runner_run : Agent -> string -> outcome (RunResult string).

Definition azure_openai_client : AsyncAzureOpenAI :=
  {| api_key := os_getenv environ "AZURE_OPENAI_API_KEY" None;
     api_version := os_getenv environ "AZURE_OPENAI_API_VERSION" (Some "2024-05-01-preview");
     azure_endpoint := os_getenv environ "AZURE_OPENAI_ENDPOINT" None |}.

Definition agent : Agent :=
  {| name := "Assistant";
     handoff_description := None;
     instructions := "You are a helpful assistant that provides concise and accurate information.";
     output_type := None;
     agent_model :=
       {| model := os_getenv environ "AZURE_OPENAI_DEPLOYMENT" None;
          openai_client := azure_openai_client |};
     tools := [];
     input_guardrails := [];
     handoffs := [] |}.

Definition user_input : string := "What are the benefits of cloud computing?".

Definition main : io unit :=
  _ ← print ("User: " +:+ user_input);
  result ← await (Runner_run agent user_input);
  print ("Agent: " +:+ final_output result).

(** The library's constructor of the client on the keyword arguments it is
    given: it returns, or it raises. *)
Variable construct_client : AsyncAzureOpenAI -> outcome unit.

(** [main()] from its first statement: the client is constructed, then the
    model and the agents are declared and the rest runs. *)
Definition main_from_start : io unit :=
  _ ← await (construct_client azure_openai_client);
  main.

End Main.

End BasicAgent.

(** ** agent_with_tools.py *)
Module AgentWithTools.

(** [Location] and [SearchQuery] are [TypedDict]s: plain dicts at run
    time, with the string keys the class declares ([city] and [country],
    [query]).  [fetch_weather], [search_web] and [calculate] are the
    bodies [@function_tool] wraps: the runtime calls them with arguments
    it has checked against the declared types. *)

Definition fetch_weather (location : gmap string string) : outcome string :=
  city ← subscript location "city";
  country ← subscript location "country";
  mret ("The weather in " +:+ city +:+ ", " +:+ country
        +:+ " is currently sunny with a temperature of 22°C.").

Definition search_web (query : gmap string string) : outcome string :=
  q ← subscript query "query";
  mret ("Here are the top results for '" +:+ q +:+ "':
1. Example result 1
2. Example result 2
3. Example result 3").

Section Calculate.
Variable eval : string -> outcome py_object.

Definition calculate (expression : string) : outcome string :=
  try_except
    (result ← eval expression;
     text ← py_format result;
     mret ("The result of " +:+ expression +:+ " is " +:+ text))
    (fun e => mret ("Error calculating " +:+ expression +:+ ": " +:+ exc_str e)).

End Calculate.

Section Main.
Variable environ : gmap string string.
Variable Runner_run : Agent -> string -> outcome (RunResult string).

Definition azure_openai_client : AsyncAzureOpenAI :=
  {| api_key := os_getenv environ "AZURE_OPENAI_API_KEY" None;
     api_version := os_getenv environ "AZURE_OPENAI_API_VERSION" (Some "2024-05-01-preview");
     azure_endpoint := os_getenv environ "AZURE_OPENAI_ENDPOINT" None |}.

Definition agent : Agent :=
  {| name := "Research Assistant";
     handoff_description := None;
     instructions := "You are a helpful research assistant that can search for information, 
                       check the weather, and perform calculations. Use the appropriate tool 
                       based on the user's request.";
     output_type := None;
     agent_model :=
       {| model := os_getenv environ "AZURE_OPENAI_DEPLOYMENT" None;
          openai_client := azure_openai_client |};
     tools := [Tool_fetch_weather; Tool_search_web; Tool_calculate];
     input_guardrails := [];
     handoffs := [] |}.

Definition queries : list string :=
  [ "What's the weather like in London, UK?";
    "Search for information about renewable energy";
    "Calculate 15 * 24 + 7" ].

Definition main : io unit :=
  for_each queries (fun query =>
    _ ← print (LF +:+ "User: " +:+ query);
    result ← await (Runner_run agent query);
    print ("Agent: " +:+ final_output result)).

(** The library's constructor of the client on the keyword arguments it is
    given: it returns, or it raises. *)
Variable construct_client : AsyncAzureOpenAI -> outcome unit.

(** [main()] from its first statement: the client is constructed, then the
    model and the agents are declared and the rest runs. *)
Definition main_from_start : io unit :=
  _ ← await (construct_client azure_openai_client);
  main.

End Main.

End AgentWithTools.

(** ** agent_with_guardrails.py *)
Module AgentWithGuardrails.

Module ContentSafetyOutput.
Record t : Set := mk { is_safe : bool; reasoning : string }.
End ContentSafetyOutput.

Module HomeworkOutput.
Record t : Set := mk { is_homework : bool; reasoning : string }.
End HomeworkOutput.

(** The class of [final_output]: the agent's [output_type], a string when
    the agent declares none. *)
Definition class_of (t : option output_type_name) : Type :=
  match t with
  | None => string
  | Some Type_ContentSafetyOutput => ContentSafetyOutput.t
  | Some Type_HomeworkOutput => HomeworkOutput.t
  end.

Definition final_output_class (a : Agent) : Type := class_of (output_type a).

(** The library's dataclass [GuardrailFunctionOutput]: it declares the
    fields [output_info] and [tripwire_triggered], and no other. *)
Record GuardrailFunctionOutput (T : Type) : Type := mkGuardrailFunctionOutput {
  output_info : T;
  tripwire_triggered : bool
}.
Arguments mkGuardrailFunctionOutput {T} output_info tripwire_triggered.
Arguments output_info {T} g.
Arguments tripwire_triggered {T} g.

(** The call [GuardrailFunctionOutput(output_info=..., tripwire_triggered=...,
    <other keywords>)]: the arguments are evaluated first, then bound to
    the generated [__init__]; a keyword that names no field is a
    [TypeError], the first such keyword being the one reported. *)
Definition GuardrailFunctionOutput_init {T : Type} (output_info : T)
    (tripwire_triggered : bool) (others : list (string * option string))
    : outcome (GuardrailFunctionOutput T) :=
  match others with
  | [] => Returned (mkGuardrailFunctionOutput output_info tripwire_triggered)
  | (keyword, _) :: _ =>
      Raised (Exc TypeError
                ("GuardrailFunctionOutput.__init__() got an unexpected keyword argument '"
                 +:+ keyword +:+ "'"))
  end.

Section Main.
Variable environ : gmap string string.
Variable Context : Type.
Variable Runner_run :
  forall a : Agent, string -> option Context -> outcome (RunResult (final_output_class a)).

(** The [ctx] a guardrail function receives, read only for [ctx.context]. *)
Record RunContextWrapper : Type := mkRunContextWrapper { context : option Context }.

Definition azure_openai_client : AsyncAzureOpenAI :=
  {| api_key := os_getenv environ "AZURE_OPENAI_API_KEY" None;
     api_version := os_getenv environ "AZURE_OPENAI_API_VERSION" (Some "2024-05-01-preview");
     azure_endpoint := os_getenv environ "AZURE_OPENAI_ENDPOINT" None |}.

Definition model_config : OpenAIChatCompletionsModel :=
  {| model := os_getenv environ "AZURE_OPENAI_DEPLOYMENT" None;
     openai_client := azure_openai_client |}.

Definition content_safety_agent : Agent :=
  {| name := "Content Safety Check";
     handoff_description := None;
     instructions := "You evaluate if user input contains harmful, offensive, or inappropriate content.
                       Respond with is_safe=True only if the content is completely safe and appropriate.
                       Respond with is_safe=False if the content contains any harmful, offensive, or inappropriate elements.
                       Provide clear reasoning for your decision.";
     output_type := Some Type_ContentSafetyOutput;
     agent_model := model_config;
     tools := [];
     input_guardrails := [];
     handoffs := [] |}.

Definition homework_agent : Agent :=
  {| name := "Homework Check";
     handoff_description := None;
     instructions := "You evaluate if the user is asking for direct homework answers or trying to cheat on assignments.
                       Respond with is_homework=True if the query appears to be asking for direct homework answers.
                       Respond with is_homework=False if the query is asking for general knowledge or understanding.
                       Provide clear reasoning for your decision.";
     output_type := Some Type_HomeworkOutput;
     agent_model := model_config;
     tools := [];
     input_guardrails := [];
     handoffs := [] |}.

Definition content_safety_guardrail (ctx : RunContextWrapper) (agent : Agent)
    (input_data : string) : outcome (GuardrailFunctionOutput ContentSafetyOutput.t) :=
  result ← Runner_run content_safety_agent input_data (context ctx);
  let final_output : ContentSafetyOutput.t := final_output result in
  GuardrailFunctionOutput_init final_output
    (negb (ContentSafetyOutput.is_safe final_output))
    [ ("message",
       if negb (ContentSafetyOutput.is_safe final_output)
       then Some ("Content safety check: " +:+ ContentSafetyOutput.reasoning final_output)
       else None) ].

Definition homework_guardrail (ctx : RunContextWrapper) (agent : Agent)
    (input_data : string) : outcome (GuardrailFunctionOutput HomeworkOutput.t) :=
  result ← Runner_run homework_agent input_data (context ctx);
  let final_output : HomeworkOutput.t := final_output result in
  GuardrailFunctionOutput_init final_output
    (HomeworkOutput.is_homework final_output)
    [ ("message",
       if HomeworkOutput.is_homework final_output
       then Some ("Homework policy: " +:+ HomeworkOutput.reasoning final_output)
       else None) ].

Definition education_agent : Agent :=
  {| name := "Education Assistant";
     handoff_description := None;
     instructions := "You are an educational assistant that helps students learn and understand concepts.
                       Provide explanations that promote understanding rather than giving direct answers.
                       Use examples to illustrate concepts and encourage critical thinking.";
     output_type := None;
     agent_model := model_config;
     tools := [];
     input_guardrails := [Guard_content_safety; Guard_homework];
     handoffs := [] |}.

Definition queries : list string :=
  [ "Can you explain how photosynthesis works?";
    "Do my homework for me: solve x^2 + 5x + 6 = 0";
    "What are the key themes in Shakespeare's Macbeth?" ].

(** The body of the [for query in queries] loop. *)
Definition process_query (query : string) : io unit :=
  _ ← print (LF +:+ "User: " +:+ query);
  _ ← print "Processing...";
  io_try_except
    (result ← await (Runner_run education_agent query None);
     print ("Agent: " +:+ final_output result))
    (fun e => print ("Guardrail triggered: " +:+ exc_str e)).

Definition main : io unit := for_each queries process_query.

(** The library's constructor of the client on the keyword arguments it is
    given: it returns, or it raises. *)
Variable construct_client : AsyncAzureOpenAI -> outcome unit.

(** [main()] from its first statement: the client is constructed, then the
    model and the agents are declared and the rest runs. *)
Definition main_from_start : io unit :=
  _ ← await (construct_client azure_openai_client);
  main.

End Main.

End AgentWithGuardrails.

(** ** agent_with_handoffs.py *)
Module AgentWithHandoffs.

(** [hasattr(result, 'handoff_history')] *)
Definition hasattr_handoff_history {T : Type} (result : RunResult T) : bool :=
  match handoff_history result with
  | Some _ => true
  | None => false
  end.

(** [result.handoff_history], an [AttributeError] when the object has no
    such attribute. *)
Definition getattr_handoff_history {T : Type} (result : RunResult T)
    : outcome (list Handoff) :=
  match handoff_history result with
  | Some history => Returned history
  | None => Raised (Exc AttributeError "'RunResult' object has no attribute 'handoff_history'")
  end.

(** The truth value of a list: false when empty. *)
Definition list_bool {A : Type} (l : list A) : bool :=
  match l with
  | [] => false
  | _ :: _ => true
  end.

(** [enumerate(l)] *)
Definition enumerate {A : Type} (l : list A) : list (nat * A) :=
  combine (seq 0 (length l)) l.

Section Main.
Variable environ : gmap string string.
Variable Runner_run : Agent -> string -> outcome (RunResult string).

Definition azure_openai_client : AsyncAzureOpenAI :=
  {| api_key := os_getenv environ "AZURE_OPENAI_API_KEY" None;
     api_version := os_getenv environ "AZURE_OPENAI_API_VERSION" (Some "2024-05-01-preview");
     azure_endpoint := os_getenv environ "AZURE_OPENAI_ENDPOINT" None |}.

Definition model_config : OpenAIChatCompletionsModel :=
  {| model := os_getenv environ "AZURE_OPENAI_DEPLOYMENT" None;
     openai_client := azure_openai_client |}.

Definition math_agent : Agent :=
  {| name := "Math Tutor";
     handoff_description := Some "Specialist agent for math questions and calculations";
     instructions := "You are a math tutor who helps students understand mathematical concepts and solve problems.
                       Explain your reasoning step by step and provide clear explanations.
                       Focus only on mathematics topics.";
     output_type := None;
     agent_model := model_config;
     tools := [];
     input_guardrails := [];
     handoffs := [] |}.

Definition history_agent : Agent :=
  {| name := "History Tutor";
     handoff_description := Some "Specialist agent for historical questions and information";
     instructions := "You are a history tutor who helps students understand historical events, figures, and contexts.
                       Provide accurate information with relevant dates and explain historical significance.
                       Focus only on history topics.";
     output_type := None;
     agent_model := model_config;
     tools := [];
     input_guardrails := [];
     handoffs := [] |}.

Definition science_agent : Agent :=
  {| name := "Science Tutor";
     handoff_description := Some "Specialist agent for science questions and explanations";
     instructions := "You are a science tutor who helps students understand scientific concepts and phenomena.
                       Explain scientific principles clearly and relate them to real-world applications.
                       Focus only on science topics.";
     output_type := None;
     agent_model := model_config;
     tools := [];
     input_guardrails := [];
     handoffs := [] |}.

Definition triage_agent : Agent :=
  {| name := "Education Assistant";
     handoff_description := None;
     instructions := "You are an education assistant who helps direct students to the appropriate specialized tutor.
                       For math questions (algebra, calculus, geometry, etc.), hand off to the Math Tutor.
                       For history questions (events, figures, civilizations, etc.), hand off to the History Tutor.
                       For science questions (physics, chemistry, biology, etc.), hand off to the Science Tutor.
                       If a question spans multiple domains, choose the most relevant specialist.";
     output_type := None;
     agent_model := model_config;
     tools := [];
     input_guardrails := [];
     handoffs := [math_agent; history_agent; science_agent] |}.

Definition questions : list string :=
  [ "Can you help me solve this equation: 3x + 7 = 22?";
    "What were the main causes of World War I?";
    "How does photosynthesis work in plants?" ].

(** One line of the handoff path, for the pair [enumerate] yields. *)
Definition handoff_line (entry : nat * Handoff) : string :=
  "  " +:+ str_int (Z.of_nat (fst entry) + 1) +:+ ". "
  +:+ name (from_agent (snd entry)) +:+ " â†’ " +:+ name (to_agent (snd entry)).

(** What follows the run in the loop body: the answer, then the handoff
    path under the [if hasattr(...) and result.handoff_history] guard. *)
Definition report (result : RunResult string) : io unit :=
  _ ← print ("Agent: " +:+ final_output result);
  if hasattr_handoff_history result then
    history ← await (getattr_handoff_history result);
    if list_bool history then
      handoffs ← await (getattr_handoff_history result);
      _ ← print (LF +:+ "Handoff Path:");
      for_each (enumerate handoffs) (fun entry => print (handoff_line entry))
    else mret tt
  else mret tt.

(** The body of the [for question in questions] loop. *)
Definition process_question (question : string) : io unit :=
  _ ← print (LF +:+ "User: " +:+ question);
  _ ← print "Processing...";
  result ← await (Runner_run triage_agent question);
  report result.

Definition main : io unit := for_each questions process_question.

(** The library's constructor of the client on the keyword arguments it is
    given: it returns, or it raises. *)
Variable construct_client : AsyncAzureOpenAI -> outcome unit.

(** [main()] from its first statement: the client is constructed, then the
    model and the agents are declared and the rest runs. *)
Definition main_from_start : io unit :=
  _ ← await (construct_client azure_openai_client);
  main.

End Main.

End AgentWithHandoffs.

(** ** The model configurations of the four scripts *)

Definition model_configs (environ : gmap string string)
    : list OpenAIChatCompletionsModel :=
  [ agent_model (BasicAgent.agent environ);
    agent_model (AgentWithTools.agent environ);
    AgentWithGuardrails.model_config environ;
    AgentWithHandoffs.model_config environ ].

(** Every agent the four scripts declare. *)
Definition all_agents (environ : gmap string string) : list Agent :=
  [ BasicAgent.agent environ;
    AgentWithTools.agent environ;
    AgentWithGuardrails.content_safety_agent environ;
    AgentWithGuardrails.homework_agent environ;
    AgentWithGuardrails.education_agent environ;
    AgentWithHandoffs.math_agent environ;
    AgentWithHandoffs.history_agent environ;
    AgentWithHandoffs.science_agent environ;
    AgentWithHandoffs.triage_agent environ ].

(** Two environments that agree on the four variables the scripts read. *)
Definition same_azure_variables (e1 e2 : gmap string string) : Prop :=
  e1 !! "AZURE_OPENAI_API_KEY" = e2 !! "AZURE_OPENAI_API_KEY" /\
  e1 !! "AZURE_OPENAI_API_VERSION" = e2 !! "AZURE_OPENAI_API_VERSION" /\
  e1 !! "AZURE_OPENAI_ENDPOINT" = e2 !! "AZURE_OPENAI_ENDPOINT" /\
  e1 !! "AZURE_OPENAI_DEPLOYMENT" = e2 !! "AZURE_OPENAI_DEPLOYMENT".

(** The statement that [calculate] returns a text with the expression and
    its evaluated result for every well-formed arithmetic expression.  It
    fails where the expression divides by zero. *)
Definition every_well_formed_expression_has_result : Prop :=
  forall eval, eval_models_arith eval ->
  forall expression, PyArith.well_formed expression ->
  exists z text,
    PyArith.arith_eval expression = Some (PyArith.Value z) /\
    AgentWithTools.calculate eval expression = Returned text /\
    contains text expression /\ contains text (str_int z).

(** The lines the handoff path adds after the answer. *)
Definition path_lines (history : option (list Handoff)) : list string :=
  match history with
  | Some (h :: t) =>
      (LF +:+ "Handoff Path:")
        :: map AgentWithHandoffs.handoff_line (AgentWithHandoffs.enumerate (h :: t))
  | _ => []
  end.

(** A chain of transfers along declared handoffs, starting at [a]. *)
Fixpoint handoff_chain (a : Agent) (path : list Agent) : Prop :=
  match path with
  | [] => True
  | b :: rest => In b (handoffs a) /\ handoff_chain b rest
  end.

(** ** The client library's constructor *)

(** What the keyword argument is, or else the variable the library falls
    back on. *)
Definition or_environment (argument : option string)
    (environ : gmap string string) (variable : string) : option string :=
  match argument with
  | Some v => Some v
  | None => environ !! variable
  end.

(** The checks of the library's [AsyncAzureOpenAI(...)] on the keyword
    arguments the scripts pass, in the library's order.  Without a key, in
    the argument or in AZURE_OPENAI_API_KEY, and without the Azure AD token
    of AZURE_OPENAI_AD_TOKEN, it raises [OpenAIError]; without a version
    it raises [ValueError]; without an endpoint, in the argument or in
    AZURE_OPENAI_ENDPOINT, it raises [ValueError]. *)
Definition library_construct_client (environ : gmap string string)
    (kwargs : AsyncAzureOpenAI) : outcome unit :=
  match or_environment (api_key kwargs) environ "AZURE_OPENAI_API_KEY",
        environ !! "AZURE_OPENAI_AD_TOKEN" with
  | None, None =>
      Raised (Exc OpenAIError
        "Missing credentials. Please pass one of `api_key`, `azure_ad_token`, `azure_ad_token_provider`, or the `AZURE_OPENAI_API_KEY` or `AZURE_OPENAI_AD_TOKEN` environment variables.")
  | _, _ =>
      match or_environment (api_version kwargs) environ "OPENAI_API_VERSION" with
      | None =>
          Raised (Exc ValueError
            "Must provide either the `api_version` argument or the `OPENAI_API_VERSION` environment variable")
      | Some _ =>
          match or_environment (azure_endpoint kwargs) environ "AZURE_OPENAI_ENDPOINT" with
          | None =>
              Raised (Exc ValueError
                "Must provide one of the `base_url` or `azure_endpoint` arguments, or the `AZURE_OPENAI_ENDPOINT` environment variable")
          | Some _ => Returned tt
          end
      end
  end.

(** The statement that every script still constructs its client when one
    of the three variables without default is unset.  It fails where the
    key or the endpoint is the unset one. *)
Definition unset_variables_still_construct : Prop :=
  forall environ : gmap string string,
  environ !! "AZURE_OPENAI_API_KEY" = None \/
  environ !! "AZURE_OPENAI_ENDPOINT" = None \/
  environ !! "AZURE_OPENAI_DEPLOYMENT" = None ->
  Forall (fun cfg => library_construct_client environ (openai_client cfg) = Returned tt)
    (model_configs environ).

(** ** Sample environments and runners, for the worked instances *)
Module Samples.

(** Only the endpoint is set. *)
Definition endpoint_only : gmap string string :=
  {[ "AZURE_OPENAI_ENDPOINT" := "https://example.openai.azure.com/" ]}.

(** A runner that answers every query with the same text. *)
Definition constant_run (answer : string) (a : Agent) (input : string)
    : outcome (RunResult string) :=
  Returned (mkRunResult answer None).

(** A runner that reports the given handoff history. *)
Definition history_run (answer : string) (history : option (list Handoff))
    (a : Agent) (input : string) : outcome (RunResult string) :=
  Returned (mkRunResult answer history).

(** A runner whose classifier agents give fixed verdicts. *)
Definition scripted_run (safety : AgentWithGuardrails.ContentSafetyOutput.t)
    (homework : AgentWithGuardrails.HomeworkOutput.t) (answer : string)
    (a : Agent) (input : string) (ctx : option unit)
    : outcome (RunResult (AgentWithGuardrails.final_output_class a)) :=
  match output_type a as t
    return outcome (RunResult (AgentWithGuardrails.class_of t)) with
  | None => Returned (mkRunResult answer None)
  | Some Type_ContentSafetyOutput => Returned (mkRunResult safety None)
  | Some Type_HomeworkOutput => Returned (mkRunResult homework None)
  end.

(** A runner that fails every run with the given exception. *)
Definition failing_run (e : exception) (a : Agent) (input : string)
    (ctx : option unit)
    : outcome (RunResult (AgentWithGuardrails.final_output_class a)) :=
  Raised e.

Definition unsafe_verdict : AgentWithGuardrails.ContentSafetyOutput.t :=
  AgentWithGuardrails.ContentSafetyOutput.mk false "abusive language".

Definition homework_verdict : AgentWithGuardrails.HomeworkOutput.t :=
  AgentWithGuardrails.HomeworkOutput.mk true "asks for the solution of an exercise".

(** A handoff from the triage agent to the math tutor. *)
Definition to_math : Handoff :=
  mkHandoff (AgentWithHandoffs.triage_agent endpoint_only)
            (AgentWithHandoffs.math_agent endpoint_only).

Definition london : gmap string string :=
  {[ "city" := "London"; "country" := "UK" ]}.

Definition renewable : gmap string string :=
  {[ "query" := "renewable energy" ]}.

End Samples.

(** ** Transcripts of the loops *)





(** ** More sample environments, interpreters and runners *)
Module MoreSamples.

(** An interpreter in which the expression ends the process, as
    [eval("exit()")] does. *)
Definition exiting_eval (source : string) : outcome py_object :=
  Raised (Exc SystemExit "").

(** An interpreter whose value cannot be formatted. *)
Definition unformattable_eval (source : string) : outcome py_object :=
  Returned (PyObject (Raised (Exc TypeError "unsupported format string"))).

(** Only the key is set. *)
Definition key_only : gmap string string :=
  {[ "AZURE_OPENAI_API_KEY" := "0123456789abcdef" ]}.

(** The key and the endpoint are set, the deployment is not. *)
Definition no_deployment : gmap string string :=
  {[ "AZURE_OPENAI_API_KEY" := "0123456789abcdef";
     "AZURE_OPENAI_ENDPOINT" := "https://example.openai.azure.com/" ]}.

(** The version is set, to the empty string. *)
Definition empty_version : gmap string string :=
  {[ "AZURE_OPENAI_API_VERSION" := "" ]}.



Definition timeout : exception := Exc RuntimeError "Request timed out.".


(** A location with a key the class does not declare. *)
Definition london_with_zip : gmap string string :=
  <[ "zip" := "SW1A" ]> Samples.london.

End MoreSamples.

(** * Properties *)

(** ** Strings *)

Lemma string_app_assoc (a b c : string) : (a +:+ b) +:+ c = a +:+ b +:+ c.
Proof.
  induction a as [|x a IH]; [reflexivity|].
  change (String x ((a +:+ b) +:+ c) = String x (a +:+ b +:+ c)).
  by rewrite IH.
Qed.

Lemma contains_between (prefix needle suffix : string) :
  contains (prefix +:+ needle +:+ suffix) needle.
Proof. by exists prefix, suffix. Qed.

Lemma contains_suffix (prefix needle : string) :
  contains (prefix +:+ needle) needle.
Proof.
  exists prefix, "". f_equal. induction needle as [|x n IH]; [done|].
  change (String x n = String x (n +:+ "")). by rewrite <- IH.
Qed.

Lemma contains_app_r (prefix s needle : string) :
  contains s needle -> contains (prefix +:+ s) needle.
Proof.
  intros (p & q & ->). exists (prefix +:+ p), q. by rewrite string_app_assoc.
Qed.

Lemma nonempty_app_l (a b : string) : a <> "" -> a +:+ b <> "".
Proof. by destruct a. Qed.

(** ** The stub tools *)

Lemma subscript_lookup (d : gmap string string) (key v : string) :
  d !! key = Some v -> subscript d key = Returned v.
Proof. intros H. unfold subscript. by rewrite H. Qed.

(** C9. On every input of its declared type, each of [fetch_weather] and
    [search_web] returns (it never raises) a non-empty string that holds
    its input fields verbatim: the city and the country for
    [fetch_weather], the query for [search_web].  The result is a function
    of the input alone. *)
Theorem stub_tools_embed_input :
  (forall location city country,
      location !! "city" = Some city ->
      location !! "country" = Some country ->
      exists text,
        AgentWithTools.fetch_weather location = Returned text /\
        text <> "" /\ contains text city /\ contains text country) /\
  (forall query q,
      query !! "query" = Some q ->
      exists text,
        AgentWithTools.search_web query = Returned text /\
        text <> "" /\ contains text q).
Proof.
  split.
  - intros location city country Hcity Hcountry.
    unfold AgentWithTools.fetch_weather.
    rewrite (subscript_lookup _ _ _ Hcity), (subscript_lookup _ _ _ Hcountry).
    eexists; split; [reflexivity|]. split; [|split].
    + by apply nonempty_app_l.
    + apply contains_between.
    + do 2 apply contains_app_r. apply contains_between.
  - intros query q Hq.
    unfold AgentWithTools.search_web.
    rewrite (subscript_lookup _ _ _ Hq).
    eexists; split; [reflexivity|]. split.
    + by apply nonempty_app_l.
    + apply contains_between.
Qed.

Lemma stub_tools_embed_input_witness :
  (exists text,
      AgentWithTools.fetch_weather Samples.london = Returned text /\
      text <> "" /\ contains text "London" /\ contains text "UK") /\
  (exists text,
      AgentWithTools.search_web Samples.renewable = Returned text /\
      text <> "" /\ contains text "renewable energy").
Proof.
  split.
  - apply (proj1 stub_tools_embed_input Samples.london "London" "UK");
      vm_compute; reflexivity.
  - apply (proj2 stub_tools_embed_input Samples.renewable "renewable energy");
      vm_compute; reflexivity.
Defined.

(** ** The guardrail wrappers *)

Section GuardrailWrappers.
Import AgentWithGuardrails.
Variable environ : gmap string string.
Variable Context : Type.
Variable Runner_run :
  forall a : Agent, string -> option Context -> outcome (RunResult (final_output_class a)).

(** Once the classification run has returned, a wrapper is its call of the
    dataclass. *)
Lemma content_safety_guardrail_eq ctx agent input_data result :
  Runner_run (content_safety_agent environ) input_data (context Context ctx) = Returned result ->
  content_safety_guardrail environ Context Runner_run ctx agent input_data =
  GuardrailFunctionOutput_init (final_output result : ContentSafetyOutput.t)
    (negb (ContentSafetyOutput.is_safe (final_output result)))
    [ ("message",
       if negb (ContentSafetyOutput.is_safe (final_output result))
       then Some ("Content safety check: "
                  +:+ ContentSafetyOutput.reasoning (final_output result))
       else None) ].
Proof. intros H. unfold content_safety_guardrail. by rewrite H. Qed.

Lemma homework_guardrail_eq ctx agent input_data result :
  Runner_run (homework_agent environ) input_data (context Context ctx) = Returned result ->
  homework_guardrail environ Context Runner_run ctx agent input_data =
  GuardrailFunctionOutput_init (final_output result : HomeworkOutput.t)
    (HomeworkOutput.is_homework (final_output result))
    [ ("message",
       if HomeworkOutput.is_homework (final_output result)
       then Some ("Homework policy: "
                  +:+ HomeworkOutput.reasoning (final_output result))
       else None) ].
Proof. intros H. unfold homework_guardrail. by rewrite H. Qed.

End GuardrailWrappers.

(** The dataclass takes its two fields and refuses any other keyword. *)
Lemma GuardrailFunctionOutput_init_fields {T : Type} (info : T) (flag : bool) :
  AgentWithGuardrails.GuardrailFunctionOutput_init info flag [] =
  Returned (AgentWithGuardrails.mkGuardrailFunctionOutput info flag).
Proof. reflexivity. Qed.

Lemma GuardrailFunctionOutput_init_unexpected {T : Type} (info : T) (flag : bool)
    (keyword : string) (v : option string) (others : list (string * option string)) :
  exists e,
    AgentWithGuardrails.GuardrailFunctionOutput_init info flag ((keyword, v) :: others) =
      Raised e /\
    exc_type e = TypeError /\ contains (exc_str e) keyword.
Proof.
  eexists. split; [reflexivity|]. split; [reflexivity|]. apply contains_between.
Qed.

(** C1.  The wrappers report neither [tripwire_triggered] nor [message]:
    whatever the classification run returns, safe or unsafe, homework or
    not, each wrapper ends with the [TypeError] of the keyword [message],
    which the dataclass [GuardrailFunctionOutput] does not declare.  The
    error is an instance of [Exception] and names the keyword. *)
Theorem guardrail_wrappers_raise_TypeError :
  forall (environ : gmap string string) (Context : Type)
    (Runner_run : forall a : Agent, string -> option Context ->
                  outcome (RunResult (AgentWithGuardrails.final_output_class a)))
    (ctx : AgentWithGuardrails.RunContextWrapper Context) (agent : Agent)
    (input_data : string),
  (forall result,
      Runner_run (AgentWithGuardrails.content_safety_agent environ) input_data
        (AgentWithGuardrails.context Context ctx) = Returned result ->
      exists e,
        AgentWithGuardrails.content_safety_guardrail environ Context Runner_run
          ctx agent input_data = Raised e /\
        exc_type e = TypeError /\ isinstance_Exception e = true /\
        contains (exc_str e) "message") /\
  (forall result,
      Runner_run (AgentWithGuardrails.homework_agent environ) input_data
        (AgentWithGuardrails.context Context ctx) = Returned result ->
      exists e,
        AgentWithGuardrails.homework_guardrail environ Context Runner_run
          ctx agent input_data = Raised e /\
        exc_type e = TypeError /\ isinstance_Exception e = true /\
        contains (exc_str e) "message").
Proof.
  intros environ Context Runner_run ctx agent input_data. split; intros result Hrun.
  - rewrite (content_safety_guardrail_eq _ _ _ _ agent _ _ Hrun).
    destruct (GuardrailFunctionOutput_init_unexpected
                (final_output result : AgentWithGuardrails.ContentSafetyOutput.t)
                (negb (AgentWithGuardrails.ContentSafetyOutput.is_safe (final_output result)))
                "message"
                (if negb (AgentWithGuardrails.ContentSafetyOutput.is_safe (final_output result))
                 then Some ("Content safety check: "
                            +:+ AgentWithGuardrails.ContentSafetyOutput.reasoning
                                  (final_output result))
                 else None) [])
      as (e & He & Htype & Hname).
    exists e. split; [exact He|]. split; [exact Htype|]. split; [|exact Hname].
    unfold isinstance_Exception. by rewrite Htype.
  - rewrite (homework_guardrail_eq _ _ _ _ agent _ _ Hrun).
    destruct (GuardrailFunctionOutput_init_unexpected
                (final_output result : AgentWithGuardrails.HomeworkOutput.t)
                (AgentWithGuardrails.HomeworkOutput.is_homework (final_output result))
                "message"
                (if AgentWithGuardrails.HomeworkOutput.is_homework (final_output result)
                 then Some ("Homework policy: "
                            +:+ AgentWithGuardrails.HomeworkOutput.reasoning
                                  (final_output result))
                 else None) [])
      as (e & He & Htype & Hname).
    exists e. split; [exact He|]. split; [exact Htype|]. split; [|exact Hname].
    unfold isinstance_Exception. by rewrite Htype.
Qed.

Lemma guardrail_wrappers_raise_TypeError_witness :
  (exists e,
      AgentWithGuardrails.content_safety_guardrail Samples.endpoint_only unit
        (Samples.scripted_run Samples.unsafe_verdict Samples.homework_verdict "ok")
        (AgentWithGuardrails.mkRunContextWrapper unit None)
        (AgentWithGuardrails.education_agent Samples.endpoint_only)
        "You are all idiots" = Raised e /\
      exc_type e = TypeError) /\
  (exists e,
      AgentWithGuardrails.homework_guardrail Samples.endpoint_only unit
        (Samples.scripted_run Samples.unsafe_verdict Samples.homework_verdict "ok")
        (AgentWithGuardrails.mkRunContextWrapper unit None)
        (AgentWithGuardrails.education_agent Samples.endpoint_only)
        "Do my homework for me: solve x^2 + 5x + 6 = 0" = Raised e /\
      exc_type e = TypeError).
Proof.
  split.
  - destruct (proj1 (guardrail_wrappers_raise_TypeError Samples.endpoint_only unit
        (Samples.scripted_run Samples.unsafe_verdict Samples.homework_verdict "ok")
        (AgentWithGuardrails.mkRunContextWrapper unit None)
        (AgentWithGuardrails.education_agent Samples.endpoint_only)
        "You are all idiots")
        (mkRunResult Samples.unsafe_verdict None) eq_refl)
      as (e & He & Htype & _).
    exists e. split; [exact He | exact Htype].
  - destruct (proj2 (guardrail_wrappers_raise_TypeError Samples.endpoint_only unit
        (Samples.scripted_run Samples.unsafe_verdict Samples.homework_verdict "ok")
        (AgentWithGuardrails.mkRunContextWrapper unit None)
        (AgentWithGuardrails.education_agent Samples.endpoint_only)
        "Do my homework for me: solve x^2 + 5x + 6 = 0")
        (mkRunResult Samples.homework_verdict None) eq_refl)
      as (e & He & Htype & _).
    exists e. split; [exact He | exact Htype].
Defined.

(** C10.  No wrapper hands the classifier's output on as [output_info]:
    whatever the classification run returns, neither
    [content_safety_guardrail] nor [homework_guardrail] returns a
    [GuardrailFunctionOutput] at all, because the call that would hold the
    output is the one that fails on the keyword [message]. *)
Theorem guardrail_output_info_never_returned :
  forall (environ : gmap string string) (Context : Type)
    (Runner_run : forall a : Agent, string -> option Context ->
                  outcome (RunResult (AgentWithGuardrails.final_output_class a)))
    (ctx : AgentWithGuardrails.RunContextWrapper Context) (agent : Agent)
    (input_data : string),
  (forall result,
      Runner_run (AgentWithGuardrails.content_safety_agent environ) input_data
        (AgentWithGuardrails.context Context ctx) = Returned result ->
      forall g,
        AgentWithGuardrails.content_safety_guardrail environ Context Runner_run
          ctx agent input_data <> Returned g) /\
  (forall result,
      Runner_run (AgentWithGuardrails.homework_agent environ) input_data
        (AgentWithGuardrails.context Context ctx) = Returned result ->
      forall g,
        AgentWithGuardrails.homework_guardrail environ Context Runner_run
          ctx agent input_data <> Returned g).
Proof.
  intros environ Context Runner_run ctx agent input_data. split; intros result Hrun g.
  - rewrite (content_safety_guardrail_eq _ _ _ _ agent _ _ Hrun). discriminate.
  - rewrite (homework_guardrail_eq _ _ _ _ agent _ _ Hrun). discriminate.
Qed.

Lemma guardrail_output_info_never_returned_witness :
  ~ exists g,
      AgentWithGuardrails.content_safety_guardrail Samples.endpoint_only unit
        (Samples.scripted_run Samples.unsafe_verdict Samples.homework_verdict "ok")
        (AgentWithGuardrails.mkRunContextWrapper unit None)
        (AgentWithGuardrails.education_agent Samples.endpoint_only)
        "You are all idiots" = Returned g.
Proof.
  intros [g Hg].
  exact (proj1 (guardrail_output_info_never_returned Samples.endpoint_only unit
      (Samples.scripted_run Samples.unsafe_verdict Samples.homework_verdict "ok")
      (AgentWithGuardrails.mkRunContextWrapper unit None)
      (AgentWithGuardrails.education_agent Samples.endpoint_only)
      "You are all idiots")
      (mkRunResult Samples.unsafe_verdict None) eq_refl g Hg).
Defined.

(** ** The parser *)

Ltac parse_cases H :=
  repeat match type of H with
  | match ?x with _ => _ end = _ => destruct x eqn:?; try discriminate H
  end.

(** A successful parse leaves fewer tokens than it was given. *)
Lemma parse_consumes (fuel : nat) :
  (forall toks e rest, PyArith.parse_sum fuel toks = PyArith.Parsed e rest -> length rest < length toks) /\
  (forall lhs toks e rest,
      PyArith.parse_sum_rest fuel lhs toks = PyArith.Parsed e rest -> length rest <= length toks) /\
  (forall toks e rest, PyArith.parse_term fuel toks = PyArith.Parsed e rest -> length rest < length toks) /\
  (forall lhs toks e rest,
      PyArith.parse_term_rest fuel lhs toks = PyArith.Parsed e rest -> length rest <= length toks) /\
  (forall toks e rest, PyArith.parse_factor fuel toks = PyArith.Parsed e rest -> length rest < length toks).
Proof.
  induction fuel as [|fuel (IHs & IHsr & IHt & IHtr & IHf)];
    [repeat split; intros; discriminate|].
  repeat split; intros; cbn in H; parse_cases H;
    repeat match goal with
    | E : PyArith.parse_sum fuel _ = PyArith.Parsed _ _ |- _ => apply IHs in E
    | E : PyArith.parse_sum_rest fuel _ _ = PyArith.Parsed _ _ |- _ => apply IHsr in E
    | E : PyArith.parse_term fuel _ = PyArith.Parsed _ _ |- _ => apply IHt in E
    | E : PyArith.parse_term_rest fuel _ _ = PyArith.Parsed _ _ |- _ => apply IHtr in E
    | E : PyArith.parse_factor fuel _ = PyArith.Parsed _ _ |- _ => apply IHf in E
    end;
    try (injection H as <- <-); cbn [length] in *; lia.
Qed.

(** The depth of the descent is at most three calls per token. *)
Lemma parse_fuel_suffices (fuel : nat) :
  (forall toks, 3 * length toks + 3 <= fuel -> PyArith.parse_sum fuel toks <> PyArith.OutOfFuel) /\
  (forall lhs toks,
      3 * length toks + 2 <= fuel -> PyArith.parse_sum_rest fuel lhs toks <> PyArith.OutOfFuel) /\
  (forall toks, 3 * length toks + 2 <= fuel -> PyArith.parse_term fuel toks <> PyArith.OutOfFuel) /\
  (forall lhs toks,
      3 * length toks + 1 <= fuel -> PyArith.parse_term_rest fuel lhs toks <> PyArith.OutOfFuel) /\
  (forall toks, 3 * length toks + 1 <= fuel -> PyArith.parse_factor fuel toks <> PyArith.OutOfFuel).
Proof.
  induction fuel as [|fuel (IHs & IHsr & IHt & IHtr & IHf)];
    [repeat split; intros; lia|].
  destruct (parse_consumes fuel) as (Cs & Csr & Ct & Ctr & Cf).
  repeat split; intros; intros Hout; cbn in Hout; parse_cases Hout;
    repeat match goal with
    | E : PyArith.parse_sum fuel _ = PyArith.Parsed _ _ |- _ => apply Cs in E
    | E : PyArith.parse_sum_rest fuel _ _ = PyArith.Parsed _ _ |- _ => apply Csr in E
    | E : PyArith.parse_term fuel _ = PyArith.Parsed _ _ |- _ => apply Ct in E
    | E : PyArith.parse_term_rest fuel _ _ = PyArith.Parsed _ _ |- _ => apply Ctr in E
    | E : PyArith.parse_factor fuel _ = PyArith.Parsed _ _ |- _ => apply Cf in E
    end;
    cbn [length] in *;
    match goal with
    | E : PyArith.parse_sum fuel _ = PyArith.OutOfFuel |- _ => revert E; apply IHs
    | E : PyArith.parse_sum_rest fuel _ _ = PyArith.OutOfFuel |- _ => revert E; apply IHsr
    | E : PyArith.parse_term fuel _ = PyArith.OutOfFuel |- _ => revert E; apply IHt
    | E : PyArith.parse_term_rest fuel _ _ = PyArith.OutOfFuel |- _ => revert E; apply IHtr
    | E : PyArith.parse_factor fuel _ = PyArith.OutOfFuel |- _ => revert E; apply IHf
    end; lia.
Qed.

(** With the fuel [parse_expression] gives it, the parser always decides. *)
Lemma parse_never_out_of_fuel (toks : list PyArith.token) :
  PyArith.parse_sum (4 * length toks + 4) toks <> PyArith.OutOfFuel.
Proof. apply (parse_fuel_suffices (4 * length toks + 4)). lia. Qed.

(** A source within the length bound whose tokens are of the fragment and
    hold no parenthesis is decided: it parses or it is a syntax error. *)
Lemma parse_expression_decided (source : string) (toks : list PyArith.token) :
  (String.length source <= PyArith.max_source_length)%nat ->
  PyArith.tokenize source [] = PyArith.Lexed toks ->
  existsb PyArith.is_paren toks = false ->
  PyArith.parse_expression source <> None.
Proof.
  intros Hlen Hlex Hparen. unfold PyArith.parse_expression.
  destruct (Nat.ltb_spec PyArith.max_source_length (String.length source)); [lia|].
  rewrite Hlex, Hparen.
  pose proof (parse_never_out_of_fuel toks) as Hfuel.
  destruct (PyArith.parse_sum (4 * length toks + 4) toks) as [e [|t rest]| |];
    congruence.
Qed.

(** ** The arithmetic tool *)

Lemma reference_eval_models_arith : eval_models_arith reference_eval.
Proof.
  intros source. unfold reference_eval.
  destruct (PyArith.arith_eval source) as [[z|c]|]; [reflexivity| |exact I].
  destruct c; eexists; reflexivity.
Qed.

(** In the fragment the only exception evaluation can raise is the
    division by zero. *)
Lemma eval_expr_raises (e : PyArith.expr) (c : exc_class) :
  PyArith.eval_expr e = PyArith.Raises c -> c = ZeroDivisionError.
Proof.
  induction e as [z | op e IH | l IHl op r IHr]; cbn.
  - discriminate.
  - destruct op; [exact IH|].
    destruct (PyArith.eval_expr e); [discriminate|].
    intros [= <-]. by apply IH.
  - destruct (PyArith.eval_expr l) as [a|cl]; [|intros [= <-]; by apply IHl].
    destruct (PyArith.eval_expr r) as [b|cr]; [|intros [= <-]; by apply IHr].
    destruct op; cbn; try discriminate; destruct (b =? 0)%Z; congruence.
Qed.

Lemma well_formed_outcome (source : string) :
  PyArith.well_formed source ->
  (exists z, PyArith.arith_eval source = Some (PyArith.Value z)) \/
  PyArith.arith_eval source = Some (PyArith.Raises ZeroDivisionError).
Proof.
  intros [e He]. unfold PyArith.arith_eval. rewrite He.
  destruct (PyArith.eval_expr e) as [z|c] eqn:E; [left; by exists z|right].
  by rewrite (eval_expr_raises _ _ E).
Qed.

Section CalculateFacts.
Import AgentWithTools.
Variable eval : string -> outcome py_object.

Lemma calculate_returned (expression text : string) :
  eval expression = Returned (PyObject (Returned text)) ->
  calculate eval expression =
  Returned ("The result of " +:+ expression +:+ " is " +:+ text).
Proof. intros H. unfold calculate. by rewrite H. Qed.

Lemma calculate_caught (expression : string) (e : exception) :
  eval expression = Raised e ->
  isinstance_Exception e = true ->
  calculate eval expression =
  Returned ("Error calculating " +:+ expression +:+ ": " +:+ exc_str e).
Proof. intros H He. unfold calculate. rewrite H. cbn. by rewrite He. Qed.

(** What [except Exception] does not catch leaves the tool. *)
Lemma calculate_propagates (expression : string) (e : exception) :
  eval expression = Raised e ->
  isinstance_Exception e = false ->
  calculate eval expression = Raised e.
Proof. intros H He. unfold calculate. rewrite H. cbn. by rewrite He. Qed.

Lemma result_text_contains (expression text : string) :
  contains ("The result of " +:+ expression +:+ " is " +:+ text) expression /\
  contains ("The result of " +:+ expression +:+ " is " +:+ text) text.
Proof.
  split; [apply contains_between|].
  do 2 apply contains_app_r. apply contains_suffix.
Qed.

End CalculateFacts.

(** C2, counterexample.  ["1 // 0"] is a well-formed arithmetic expression,
    yet it has no numeric result: [calculate] returns the text of the
    caught [ZeroDivisionError] instead. *)
Lemma calculate_division_by_zero :
  PyArith.well_formed "1 // 0" /\
  AgentWithTools.calculate reference_eval "1 // 0" =
    Returned "Error calculating 1 // 0: integer division or modulo by zero" /\
  ~ every_well_formed_expression_has_result.
Proof.
  assert (Hwf : PyArith.well_formed "1 // 0") by (eexists; vm_compute; reflexivity).
  split; [exact Hwf|]. split; [vm_compute; reflexivity|].
  intros Hclaim.
  destruct (Hclaim reference_eval reference_eval_models_arith "1 // 0" Hwf)
    as (z & text & Hz & _).
  vm_compute in Hz. discriminate Hz.
Qed.

(** C2, amended.  Whenever [eval] returns a value and the value formats,
    [calculate] returns ["The result of <expression> is <formatted value>"],
    a string that holds the input expression and the evaluated result;
    this covers every expression, floats and powers included.  On
    Python's integer arithmetic (decimal literals, unary and binary
    [+ -], [* // %], parentheses, sources of at most [max_source_length]
    characters) the result is the correct integer, and for
    ["15 * 24 + 7"] the returned string holds ["367"].  A well-formed
    expression need not have a result: when its evaluation raises an
    instance of [Exception] (the division by zero of ["1 // 0"], the one
    exception of the integer fragment) or its value does not format,
    [calculate] returns ["Error calculating <expression>: <message>"]. *)
Theorem calculate_well_formed :
  forall eval : string -> outcome py_object,
  eval_models_arith eval ->
  (forall expression obj shown,
      eval expression = Returned obj ->
      py_format obj = Returned shown ->
      AgentWithTools.calculate eval expression =
        Returned ("The result of " +:+ expression +:+ " is " +:+ shown) /\
      contains ("The result of " +:+ expression +:+ " is " +:+ shown) expression /\
      contains ("The result of " +:+ expression +:+ " is " +:+ shown) shown) /\
  (forall expression e,
      isinstance_Exception e = true ->
      eval expression = Raised e \/
      (exists obj, eval expression = Returned obj /\ py_format obj = Raised e) ->
      AgentWithTools.calculate eval expression =
        Returned ("Error calculating " +:+ expression +:+ ": " +:+ exc_str e)) /\
  (forall expression,
      PyArith.well_formed expression ->
      (exists z,
          PyArith.arith_eval expression = Some (PyArith.Value z) /\
          AgentWithTools.calculate eval expression =
            Returned ("The result of " +:+ expression +:+ " is " +:+ str_int z) /\
          contains ("The result of " +:+ expression +:+ " is " +:+ str_int z) expression /\
          contains ("The result of " +:+ expression +:+ " is " +:+ str_int z) (str_int z)) \/
      (PyArith.arith_eval expression = Some (PyArith.Raises ZeroDivisionError) /\
       exists msg,
         AgentWithTools.calculate eval expression =
           Returned ("Error calculating " +:+ expression +:+ ": " +:+ msg))) /\
  (AgentWithTools.calculate eval "15 * 24 + 7" =
     Returned "The result of 15 * 24 + 7 is 367" /\
   contains "The result of 15 * 24 + 7 is 367" "367").
Proof.
  intros eval Heval. split; [|split; [|split]].
  - intros expression [fmt] shown Hobj Hfmt. cbn in Hfmt. subst fmt. split.
    + by apply calculate_returned.
    + apply result_text_contains.
  - intros expression e He [Hraise | ([fmt] & Hobj & Hfmt)].
    + by apply calculate_caught.
    + cbn in Hfmt. subst fmt. unfold AgentWithTools.calculate.
      rewrite Hobj. cbn. by rewrite He.
  - intros expression Hwf. specialize (Heval expression).
    destruct (well_formed_outcome expression Hwf) as [[z Hz] | Hzero].
    + left. exists z. rewrite Hz in Heval. split; [exact Hz|]. split.
      * by apply calculate_returned.
      * apply result_text_contains.
    + right. rewrite Hzero in Heval. destruct Heval as [msg Hmsg].
      split; [exact Hzero|]. exists msg.
      by rewrite (calculate_caught eval expression _ Hmsg).
  - split.
    + specialize (Heval "15 * 24 + 7"). vm_compute in Heval.
      unfold AgentWithTools.calculate. rewrite Heval. reflexivity.
    + apply (contains_suffix "The result of 15 * 24 + 7 is " "367").
Qed.

Lemma calculate_well_formed_witness :
  AgentWithTools.calculate reference_eval "(1 + 2) * -3" =
    Returned "The result of (1 + 2) * -3 is -9" /\
  AgentWithTools.calculate reference_eval "15 * 24 + 7" =
    Returned "The result of 15 * 24 + 7 is 367" /\
  AgentWithTools.calculate reference_eval "7 % 0" =
    Returned "Error calculating 7 % 0: integer division or modulo by zero".
Proof.
  pose proof (calculate_well_formed reference_eval reference_eval_models_arith)
    as (Hvalue & Herror & Hall & H367 & _).
  split; [|split; [exact H367|]].
  - assert (Hwf : PyArith.well_formed "(1 + 2) * -3")
      by (eexists; vm_compute; reflexivity).
    destruct (Hall "(1 + 2) * -3" Hwf) as [(z & Hz & Hcalc & _) | [Hzero _]].
    + vm_compute in Hz. injection Hz as <-. exact Hcalc.
    + vm_compute in Hzero. discriminate Hzero.
  - exact (Herror "7 % 0" (Exc ZeroDivisionError "integer division or modulo by zero")
             eq_refl (or_introl eq_refl)).
Defined.

(** C3.  A malformed expression makes [eval] raise a [SyntaxError]; the
    tool catches it and returns
    ["Error calculating <expression>: <message>"], a string that names the
    input expression, so nothing is raised to the caller.  ["2+"] is such
    an input. *)
Theorem calculate_malformed_returns_error :
  forall eval : string -> outcome py_object,
  eval_models_arith eval ->
  (forall expression e,
      eval expression = Raised e ->
      exc_type e = SyntaxError ->
      AgentWithTools.calculate eval expression =
        Returned ("Error calculating " +:+ expression +:+ ": " +:+ exc_str e) /\
      contains ("Error calculating " +:+ expression +:+ ": " +:+ exc_str e) expression) /\
  (exists e,
      eval "2+" = Raised e /\ exc_type e = SyntaxError /\
      AgentWithTools.calculate eval "2+" =
        Returned ("Error calculating 2+: " +:+ exc_str e)).
Proof.
  intros eval Heval.
  assert (Hcaught : forall expression e,
      eval expression = Raised e -> exc_type e = SyntaxError ->
      AgentWithTools.calculate eval expression =
        Returned ("Error calculating " +:+ expression +:+ ": " +:+ exc_str e)).
  { intros expression e Hraise Hsyntax. apply calculate_caught; [exact Hraise|].
    unfold isinstance_Exception. by rewrite Hsyntax. }
  split.
  - intros expression e Hraise Hsyntax. split; [by apply Hcaught|].
    apply contains_between.
  - specialize (Heval "2+"). vm_compute in Heval. destruct Heval as [msg Hmsg].
    exists (Exc SyntaxError msg). split; [exact Hmsg|]. split; [reflexivity|].
    exact (Hcaught "2+" _ Hmsg eq_refl).
Qed.

Lemma calculate_malformed_returns_error_witness :
  AgentWithTools.calculate reference_eval "2+" =
    Returned "Error calculating 2+: invalid syntax (<string>, line 1)" /\
  AgentWithTools.calculate reference_eval "15 * * 24" =
    Returned "Error calculating 15 * * 24: invalid syntax (<string>, line 1)".
Proof.
  pose proof (calculate_malformed_returns_error reference_eval
                reference_eval_models_arith) as [Hall _].
  split.
  - exact (proj1 (Hall "2+" (Exc SyntaxError "invalid syntax (<string>, line 1)")
                    eq_refl eq_refl)).
  - exact (proj1 (Hall "15 * * 24" (Exc SyntaxError "invalid syntax (<string>, line 1)")
                    eq_refl eq_refl)).
Defined.

(** ** Printing computations *)

Lemma io_bind_print {B : Type} (line : string) (k : unit -> io B) (out : list string) :
  (print line ≫= k) out = k tt (out ++ [line]).
Proof. reflexivity. Qed.

Lemma io_bind_await_returned {A B : Type} (call : outcome A) (a : A)
    (k : A -> io B) (out : list string) :
  call = Returned a -> (await call ≫= k) out = k a out.
Proof. by intros ->. Qed.

Lemma io_bind_await_raised {A B : Type} (call : outcome A) (e : exception)
    (k : A -> io B) (out : list string) :
  call = Raised e -> (await call ≫= k) out = (out, Raised e).
Proof. by intros ->. Qed.

Lemma for_each_cons {A : Type} (x : A) (xs : list A) (body : A -> io unit)
    (out out' : list string) :
  body x out = (out', Returned tt) ->
  for_each (x :: xs) body out = for_each xs body out'.
Proof.
  intros H. cbn [for_each]. unfold mbind, io_bind. by rewrite H.
Qed.

Lemma for_each_returns {A : Type} (xs : list A) (body : A -> io unit) :
  (forall x out, In x xs -> snd (body x out) = Returned tt) ->
  forall out, snd (for_each xs body out) = Returned tt.
Proof.
  induction xs as [|x xs IH]; intros Hbody out; [reflexivity|].
  pose proof (Hbody x out (or_introl eq_refl)) as Hx.
  destruct (body x out) as [out' r] eqn:E. cbn in Hx. subst r.
  rewrite (for_each_cons _ _ _ _ _ E). apply IH.
  intros y o Hy. apply Hbody. by right.
Qed.

Lemma for_each_print {A : Type} (f : A -> string) (xs : list A) (out : list string) :
  for_each xs (fun x => print (f x)) out = (out ++ map f xs, Returned tt).
Proof.
  revert out. induction xs as [|x xs IH]; intros out; cbn [for_each map].
  - by rewrite app_nil_r.
  - rewrite io_bind_print, IH. by rewrite <- app_assoc.
Qed.

Create Rewrite HintDb io.
#[global] Hint Rewrite @io_bind_print : io.
#[global] Hint Rewrite @for_each_print : io.

(** ** The client configuration *)

Lemma os_getenv_None (environ : gmap string string) (key : string) :
  os_getenv environ key None = environ !! key.
Proof. unfold os_getenv. by destruct (environ !! key). Qed.

Lemma os_getenv_Some (environ : gmap string string) (key fallback : string) :
  os_getenv environ key (Some fallback) = Some (default fallback (environ !! key)).
Proof. unfold os_getenv. by destruct (environ !! key). Qed.

Lemma model_configs_eq (environ : gmap string string) :
  let cfg :=
    {| model := environ !! "AZURE_OPENAI_DEPLOYMENT";
       openai_client :=
         {| api_key := environ !! "AZURE_OPENAI_API_KEY";
            api_version :=
              Some (default "2024-05-01-preview" (environ !! "AZURE_OPENAI_API_VERSION"));
            azure_endpoint := environ !! "AZURE_OPENAI_ENDPOINT" |} |} in
  model_configs environ = [cfg; cfg; cfg; cfg].
Proof.
  unfold model_configs, BasicAgent.agent, AgentWithTools.agent,
    AgentWithGuardrails.model_config, AgentWithHandoffs.model_config,
    BasicAgent.azure_openai_client, AgentWithTools.azure_openai_client,
    AgentWithGuardrails.azure_openai_client, AgentWithHandoffs.azure_openai_client.
  cbn [agent_model]. by rewrite !os_getenv_None, !os_getenv_Some.
Qed.

(** The four fields of each script's configuration. *)
Lemma model_config_fields (environ : gmap string string) :
  Forall (fun cfg =>
      api_key (openai_client cfg) = environ !! "AZURE_OPENAI_API_KEY" /\
      api_version (openai_client cfg) =
        Some (default "2024-05-01-preview" (environ !! "AZURE_OPENAI_API_VERSION")) /\
      azure_endpoint (openai_client cfg) = environ !! "AZURE_OPENAI_ENDPOINT" /\
      model cfg = environ !! "AZURE_OPENAI_DEPLOYMENT")
    (model_configs environ).
Proof. rewrite model_configs_eq. cbn zeta. by repeat constructor. Qed.

(** C4.  In each of the four scripts the model configuration built at
    startup holds the four fields read from the environment and nothing
    else of it: the key, the version, the endpoint and the deployment are
    the values of AZURE_OPENAI_API_KEY, AZURE_OPENAI_API_VERSION,
    AZURE_OPENAI_ENDPOINT and AZURE_OPENAI_DEPLOYMENT, two environments
    that agree on these four variables give the same configuration, and
    when AZURE_OPENAI_API_VERSION is unset the version is
    ["2024-05-01-preview"]. *)
Theorem model_config_from_environment :
  forall environ : gmap string string,
  Forall (fun cfg =>
      api_key (openai_client cfg) = environ !! "AZURE_OPENAI_API_KEY" /\
      api_version (openai_client cfg) =
        Some (default "2024-05-01-preview" (environ !! "AZURE_OPENAI_API_VERSION")) /\
      azure_endpoint (openai_client cfg) = environ !! "AZURE_OPENAI_ENDPOINT" /\
      model cfg = environ !! "AZURE_OPENAI_DEPLOYMENT" /\
      (environ !! "AZURE_OPENAI_API_VERSION" = None ->
       api_version (openai_client cfg) = Some "2024-05-01-preview"))
    (model_configs environ) /\
  length (model_configs environ) = 4 /\
  (forall environ', same_azure_variables environ environ' ->
     model_configs environ = model_configs environ').
Proof.
  intros environ. split; [|split].
  - rewrite model_configs_eq. cbn zeta.
    repeat constructor; cbn; intros ->; reflexivity.
  - reflexivity.
  - intros environ' (Hkey & Hversion & Hendpoint & Hdeployment).
    rewrite !model_configs_eq. cbn zeta.
    by rewrite Hkey, Hversion, Hendpoint, Hdeployment.
Qed.

Lemma model_config_from_environment_witness :
  Samples.endpoint_only !! "AZURE_OPENAI_API_VERSION" = None /\
  Forall (fun cfg => api_version (openai_client cfg) = Some "2024-05-01-preview")
    (model_configs Samples.endpoint_only).
Proof.
  assert (Hunset : Samples.endpoint_only !! "AZURE_OPENAI_API_VERSION" = None)
    by (vm_compute; reflexivity).
  split; [exact Hunset|].
  eapply Forall_impl; [exact (proj1 (model_config_from_environment Samples.endpoint_only))|].
  intros cfg (_ & _ & _ & _ & Hdefault). exact (Hdefault Hunset).
Defined.

(** ** The handoff report *)

Lemma report_printed (result : RunResult string) (out : list string) :
  AgentWithHandoffs.report result out =
  (out ++ ("Agent: " +:+ final_output result) :: path_lines (handoff_history result),
   Returned tt).
Proof.
  unfold AgentWithHandoffs.report, AgentWithHandoffs.hasattr_handoff_history,
    AgentWithHandoffs.getattr_handoff_history, path_lines.
  rewrite io_bind_print.
  destruct (handoff_history result) as [[|h t]|]; [reflexivity| |reflexivity].
  rewrite (io_bind_await_returned _ (h :: t) _ _ eq_refl).
  cbn [AgentWithHandoffs.list_bool].
  rewrite (io_bind_await_returned _ (h :: t) _ _ eq_refl).
  rewrite io_bind_print, for_each_print. by rewrite <- !app_assoc.
Qed.

Lemma process_question_printed (environ : gmap string string)
    (Runner_run : Agent -> string -> outcome (RunResult string))
    (question : string) (result : RunResult string) (out : list string) :
  Runner_run (AgentWithHandoffs.triage_agent environ) question = Returned result ->
  AgentWithHandoffs.process_question environ Runner_run question out =
  (out ++ [LF +:+ "User: " +:+ question; "Processing...";
           "Agent: " +:+ final_output result]
       ++ path_lines (handoff_history result),
   Returned tt).
Proof.
  intros Hrun. unfold AgentWithHandoffs.process_question.
  rewrite !io_bind_print, (io_bind_await_returned _ _ _ _ Hrun), report_printed.
  by rewrite <- !app_assoc.
Qed.

(** The header of the path is none of the three lines before it. *)
Lemma header_not_in_answer (question answer : string) :
  ~ In (LF +:+ "Handoff Path:")
       [LF +:+ "User: " +:+ question; "Processing..."; "Agent: " +:+ answer].
Proof. intros [H | [H | [H | []]]]; cbv in H; discriminate H. Qed.

(** C6.  Whatever result the run returns, the loop body of the handoffs
    script ends normally, and it prints the handoff path exactly when the
    result has a [handoff_history] attribute whose list is not empty: with
    the attribute absent or empty it prints the question, the progress line
    and the final output only, and reading the missing attribute is never
    attempted. *)
Theorem handoff_path_printed_iff_history :
  forall (environ : gmap string string)
    (Runner_run : Agent -> string -> outcome (RunResult string))
    (question : string) (result : RunResult string) (out : list string),
  Runner_run (AgentWithHandoffs.triage_agent environ) question = Returned result ->
  exists printed,
    AgentWithHandoffs.process_question environ Runner_run question out =
      (out ++ printed, Returned tt) /\
    (In (LF +:+ "Handoff Path:") printed <->
     exists history, handoff_history result = Some history /\ history <> []) /\
    (handoff_history result = None \/ handoff_history result = Some [] ->
     printed = [LF +:+ "User: " +:+ question; "Processing...";
                "Agent: " +:+ final_output result]) /\
    (forall history,
        handoff_history result = Some history -> history <> [] ->
        printed = [LF +:+ "User: " +:+ question; "Processing...";
                   "Agent: " +:+ final_output result; LF +:+ "Handoff Path:"]
                  ++ map AgentWithHandoffs.handoff_line
                       (AgentWithHandoffs.enumerate history)).
Proof.
  intros environ Runner_run question result out Hrun.
  eexists. split; [exact (process_question_printed _ _ _ _ out Hrun)|].
  destruct (handoff_history result) as [[|h t]|]; cbn [path_lines].
  - rewrite app_nil_r. split; [split|split].
    + intros Hin. by destruct (header_not_in_answer _ _ Hin).
    + intros (history & [= <-] & Hne). by destruct Hne.
    + reflexivity.
    + intros history [= <-] Hne. by destruct Hne.
  - split; [split|split].
    + intros _. by exists (h :: t).
    + intros _. cbn. do 3 right. by left.
    + intros [H | H]; discriminate H.
    + intros history [= <-] _. reflexivity.
  - rewrite app_nil_r. split; [split|split].
    + intros Hin. by destruct (header_not_in_answer _ _ Hin).
    + intros (history & H & _). discriminate H.
    + reflexivity.
    + intros history H. discriminate H.
Qed.

Lemma handoff_path_printed_iff_history_witness :
  AgentWithHandoffs.process_question Samples.endpoint_only
      (Samples.history_run "x = 5" None)
      "Can you help me solve this equation: 3x + 7 = 22?" [] =
    ([LF +:+ "User: Can you help me solve this equation: 3x + 7 = 22?";
      "Processing..."; "Agent: x = 5"], Returned tt) /\
  AgentWithHandoffs.process_question Samples.endpoint_only
      (Samples.history_run "x = 5" (Some [Samples.to_math]))
      "Can you help me solve this equation: 3x + 7 = 22?" [] =
    ([LF +:+ "User: Can you help me solve this equation: 3x + 7 = 22?";
      "Processing..."; "Agent: x = 5"; LF +:+ "Handoff Path:";
      "  1. Education Assistant â†’ Math Tutor"], Returned tt).
Proof.
  split.
  - destruct (handoff_path_printed_iff_history Samples.endpoint_only
        (Samples.history_run "x = 5" None)
        "Can you help me solve this equation: 3x + 7 = 22?"
        (mkRunResult "x = 5" None) [] eq_refl)
      as (printed & Heq & _ & Habsent & _).
    rewrite Heq, (Habsent (or_introl eq_refl)). reflexivity.
  - destruct (handoff_path_printed_iff_history Samples.endpoint_only
        (Samples.history_run "x = 5" (Some [Samples.to_math]))
        "Can you help me solve this equation: 3x + 7 = 22?"
        (mkRunResult "x = 5" (Some [Samples.to_math])) [] eq_refl)
      as (printed & Heq & _ & _ & Hpresent).
    rewrite Heq, (Hpresent [Samples.to_math] eq_refl); [reflexivity|discriminate].
Defined.

(** ** The guardrails loop *)

Section GuardrailsLoop.
Import AgentWithGuardrails.
Variable environ : gmap string string.
Variable Context : Type.
Variable Runner_run :
  forall a : Agent, string -> option Context -> outcome (RunResult (final_output_class a)).

Lemma process_query_returned query result out :
  Runner_run (education_agent environ) query None = Returned result ->
  process_query environ Context Runner_run query out =
  (out ++ [LF +:+ "User: " +:+ query; "Processing...";
           "Agent: " +:+ (final_output result : string)], Returned tt).
Proof.
  intros Hrun. unfold process_query, io_try_except.
  rewrite !io_bind_print, (io_bind_await_returned _ _ _ _ Hrun).
  unfold print. by rewrite <- !app_assoc.
Qed.

Lemma process_query_caught query e out :
  Runner_run (education_agent environ) query None = Raised e ->
  isinstance_Exception e = true ->
  process_query environ Context Runner_run query out =
  (out ++ [LF +:+ "User: " +:+ query; "Processing...";
           "Guardrail triggered: " +:+ exc_str e], Returned tt).
Proof.
  intros Hrun He. unfold process_query, io_try_except.
  rewrite !io_bind_print, (io_bind_await_raised _ _ _ _ Hrun), He.
  unfold print. by rewrite <- !app_assoc.
Qed.


End GuardrailsLoop.

(** C5.  In the guardrails script, for every query of the fixed list, an
    exception the run call raises (an instance of [Exception]: a tripwire
    and a transport failure are not told apart) is caught by the one
    handler, which prints ["Guardrail triggered: <message>"]; the loop body
    ends normally and the loop goes on with the next query. *)
Theorem guardrails_loop_catches_exception :
  forall (environ : gmap string string) (Context : Type)
    (Runner_run : forall a : Agent, string -> option Context ->
                  outcome (RunResult (AgentWithGuardrails.final_output_class a)))
    (query : string) (e : exception) (out : list string),
  In query AgentWithGuardrails.queries ->
  Runner_run (AgentWithGuardrails.education_agent environ) query None = Raised e ->
  isinstance_Exception e = true ->
  AgentWithGuardrails.process_query environ Context Runner_run query out =
    (out ++ [LF +:+ "User: " +:+ query; "Processing...";
             "Guardrail triggered: " +:+ exc_str e], Returned tt) /\
  (forall rest,
      for_each (query :: rest)
        (AgentWithGuardrails.process_query environ Context Runner_run) out =
      for_each rest
        (AgentWithGuardrails.process_query environ Context Runner_run)
        (out ++ [LF +:+ "User: " +:+ query; "Processing...";
                 "Guardrail triggered: " +:+ exc_str e])).
Proof.
  intros environ Context Runner_run query e out _ Hrun He.
  pose proof (process_query_caught environ Context Runner_run query e out Hrun He)
    as Hbody.
  split; [exact Hbody|].
  intros rest. by apply for_each_cons.
Qed.

Lemma guardrails_loop_catches_exception_witness :
  AgentWithGuardrails.process_query Samples.endpoint_only unit
      (Samples.failing_run (Exc InputGuardrailTripwireTriggered "Guardrail InputGuardrail triggered tripwire"))
      "Do my homework for me: solve x^2 + 5x + 6 = 0" [] =
    ([LF +:+ "User: Do my homework for me: solve x^2 + 5x + 6 = 0";
      "Processing...";
      "Guardrail triggered: Guardrail InputGuardrail triggered tripwire"],
     Returned tt).
Proof.
  refine (proj1 (guardrails_loop_catches_exception Samples.endpoint_only unit
    (Samples.failing_run (Exc InputGuardrailTripwireTriggered "Guardrail InputGuardrail triggered tripwire"))
    "Do my homework for me: solve x^2 + 5x + 6 = 0"
    (Exc InputGuardrailTripwireTriggered "Guardrail InputGuardrail triggered tripwire") [] _ eq_refl eq_refl)).
  cbn. right. left. reflexivity.
Defined.

(** ** Unset variables *)

Section ScriptsReachTheRun.
Variable environ : gmap string string.

Lemma basic_main_returns (run : Agent -> string -> outcome (RunResult string)) :
  (forall a q, exists r, run a q = Returned r) ->
  forall out, snd (BasicAgent.main environ run out) = Returned tt.
Proof.
  intros Hrun out. unfold BasicAgent.main.
  destruct (Hrun (BasicAgent.agent environ) BasicAgent.user_input) as [r Hr].
  autorewrite with io. by rewrite (io_bind_await_returned _ _ _ _ Hr).
Qed.

Lemma tools_main_returns (run : Agent -> string -> outcome (RunResult string)) :
  (forall a q, exists r, run a q = Returned r) ->
  forall out, snd (AgentWithTools.main environ run out) = Returned tt.
Proof.
  intros Hrun. apply for_each_returns. intros query out _.
  destruct (Hrun (AgentWithTools.agent environ) query) as [r Hr].
  autorewrite with io. by rewrite (io_bind_await_returned _ _ _ _ Hr).
Qed.

Lemma guardrails_main_returns (Context : Type)
    (run : forall a : Agent, string -> option Context ->
           outcome (RunResult (AgentWithGuardrails.final_output_class a))) :
  (forall a q c, exists r, run a q c = Returned r) ->
  forall out, snd (AgentWithGuardrails.main environ Context run out) = Returned tt.
Proof.
  intros Hrun. apply for_each_returns. intros query out _.
  destruct (Hrun (AgentWithGuardrails.education_agent environ) query None) as [r Hr].
  by rewrite (process_query_returned _ _ _ _ _ _ Hr).
Qed.

Lemma handoffs_main_returns (run : Agent -> string -> outcome (RunResult string)) :
  (forall a q, exists r, run a q = Returned r) ->
  forall out, snd (AgentWithHandoffs.main environ run out) = Returned tt.
Proof.
  intros Hrun. apply for_each_returns. intros question out _.
  destruct (Hrun (AgentWithHandoffs.triage_agent environ) question) as [r Hr].
  by rewrite (process_question_printed _ _ _ _ _ Hr).
Qed.

End ScriptsReachTheRun.

Lemma main_from_start_eq
    (construct : AsyncAzureOpenAI -> outcome unit) (kwargs : AsyncAzureOpenAI)
    (rest : io unit) (out : list string) :
  (_ ← await (construct kwargs); rest) out =
  match construct kwargs with
  | Returned _ => rest out
  | Raised e => (out, Raised e)
  end.
Proof. unfold mbind, io_bind, await. by destruct (construct kwargs) as [[]|e]. Qed.

(** What the library's constructor does with the scripts' arguments. *)
Lemma library_construct_client_cases (environ : gmap string string) :
  Forall (fun cfg =>
      (environ !! "AZURE_OPENAI_API_KEY" = None ->
       environ !! "AZURE_OPENAI_AD_TOKEN" = None ->
       exists e, library_construct_client environ (openai_client cfg) = Raised e /\
                 exc_type e = OpenAIError) /\
      (is_Some (environ !! "AZURE_OPENAI_API_KEY") ->
       environ !! "AZURE_OPENAI_ENDPOINT" = None ->
       exists e, library_construct_client environ (openai_client cfg) = Raised e /\
                 exc_type e = ValueError) /\
      (is_Some (environ !! "AZURE_OPENAI_API_KEY") ->
       is_Some (environ !! "AZURE_OPENAI_ENDPOINT") ->
       library_construct_client environ (openai_client cfg) = Returned tt))
    (model_configs environ).
Proof.
  rewrite model_configs_eq. cbn zeta. unfold library_construct_client, or_environment.
  cbn [api_key api_version azure_endpoint openai_client].
  repeat (apply List.Forall_cons); [..|apply List.Forall_nil];
    (split; [|split]).
  all: try (intros -> ->; by eexists).
  all: try (intros [k ->] ->; by eexists).
  all: intros [k ->] [u ->]; reflexivity.
Qed.

(** C7, counterexample.  With AZURE_OPENAI_API_KEY unset (and no Azure AD
    token) the constructor of the client raises [OpenAIError], which ends
    every script before anything is printed; with the key set and
    AZURE_OPENAI_ENDPOINT unset it raises [ValueError].  No client, model
    or agent is built. *)
Lemma unset_key_or_endpoint_stops_the_script :
  Samples.endpoint_only !! "AZURE_OPENAI_API_KEY" = None /\
  (exists e,
      exc_type e = OpenAIError /\
      BasicAgent.main_from_start Samples.endpoint_only (Samples.constant_run "ok")
        (library_construct_client Samples.endpoint_only) [] = ([], Raised e) /\
      AgentWithTools.main_from_start Samples.endpoint_only (Samples.constant_run "ok")
        (library_construct_client Samples.endpoint_only) [] = ([], Raised e) /\
      AgentWithGuardrails.main_from_start Samples.endpoint_only unit
        (Samples.scripted_run Samples.unsafe_verdict Samples.homework_verdict "ok")
        (library_construct_client Samples.endpoint_only) [] = ([], Raised e) /\
      AgentWithHandoffs.main_from_start Samples.endpoint_only (Samples.constant_run "ok")
        (library_construct_client Samples.endpoint_only) [] = ([], Raised e)) /\
  MoreSamples.key_only !! "AZURE_OPENAI_ENDPOINT" = None /\
  (exists e,
      exc_type e = ValueError /\
      BasicAgent.main_from_start MoreSamples.key_only (Samples.constant_run "ok")
        (library_construct_client MoreSamples.key_only) [] = ([], Raised e)) /\
  ~ unset_variables_still_construct.
Proof.
  split; [vm_compute; reflexivity|]. split.
  { eexists. split; [|repeat split; vm_compute; reflexivity]. reflexivity. }
  split; [vm_compute; reflexivity|]. split.
  { eexists. split; [|vm_compute; reflexivity]. reflexivity. }
  intros Hclaim.
  assert (Hunset : Samples.endpoint_only !! "AZURE_OPENAI_API_KEY" = None)
    by (vm_compute; reflexivity).
  pose proof (Hclaim Samples.endpoint_only (or_introl Hunset)) as Hall.
  apply Forall_inv in Hall. vm_compute in Hall. discriminate Hall.
Qed.

(** C7, amended.  With any of AZURE_OPENAI_API_KEY, AZURE_OPENAI_ENDPOINT
    or AZURE_OPENAI_DEPLOYMENT unset, no script checks anything itself:
    the field of an unset variable is [None] in the keyword arguments it
    passes and in the configuration every agent holds.  Whether the client
    is built is the constructor's decision alone: when the constructor
    raises, [main] ends with that exception before anything is printed,
    and when it returns, [main] goes on as if nothing were missing.  The
    library's constructor raises [OpenAIError] for a missing key (with no
    Azure AD token) and [ValueError] for a missing endpoint; a missing
    deployment alone stops nothing. *)
Theorem unset_variables_pass_through :
  forall environ : gmap string string,
  environ !! "AZURE_OPENAI_API_KEY" = None \/
  environ !! "AZURE_OPENAI_ENDPOINT" = None \/
  environ !! "AZURE_OPENAI_DEPLOYMENT" = None ->
  Forall (fun cfg =>
      (environ !! "AZURE_OPENAI_API_KEY" = None -> api_key (openai_client cfg) = None) /\
      (environ !! "AZURE_OPENAI_ENDPOINT" = None ->
       azure_endpoint (openai_client cfg) = None) /\
      (environ !! "AZURE_OPENAI_DEPLOYMENT" = None -> model cfg = None))
    (model_configs environ) /\
  Forall (fun a => In (agent_model a) (model_configs environ)) (all_agents environ) /\
  (forall construct run out,
      BasicAgent.main_from_start environ run construct out =
      match construct (BasicAgent.azure_openai_client environ) with
      | Returned _ => BasicAgent.main environ run out
      | Raised e => (out, Raised e)
      end) /\
  (forall construct run out,
      AgentWithTools.main_from_start environ run construct out =
      match construct (AgentWithTools.azure_openai_client environ) with
      | Returned _ => AgentWithTools.main environ run out
      | Raised e => (out, Raised e)
      end) /\
  (forall Context construct run out,
      AgentWithGuardrails.main_from_start environ Context run construct out =
      match construct (AgentWithGuardrails.azure_openai_client environ) with
      | Returned _ => AgentWithGuardrails.main environ Context run out
      | Raised e => (out, Raised e)
      end) /\
  (forall construct run out,
      AgentWithHandoffs.main_from_start environ run construct out =
      match construct (AgentWithHandoffs.azure_openai_client environ) with
      | Returned _ => AgentWithHandoffs.main environ run out
      | Raised e => (out, Raised e)
      end) /\
  Forall (fun cfg =>
      (environ !! "AZURE_OPENAI_API_KEY" = None ->
       environ !! "AZURE_OPENAI_AD_TOKEN" = None ->
       exists e, library_construct_client environ (openai_client cfg) = Raised e /\
                 exc_type e = OpenAIError) /\
      (is_Some (environ !! "AZURE_OPENAI_API_KEY") ->
       environ !! "AZURE_OPENAI_ENDPOINT" = None ->
       exists e, library_construct_client environ (openai_client cfg) = Raised e /\
                 exc_type e = ValueError) /\
      (is_Some (environ !! "AZURE_OPENAI_API_KEY") ->
       is_Some (environ !! "AZURE_OPENAI_ENDPOINT") ->
       library_construct_client environ (openai_client cfg) = Returned tt))
    (model_configs environ).
Proof.
  intros environ _. split; [|split].
  - eapply Forall_impl; [exact (model_config_fields environ)|].
    intros cfg (Hkey & _ & Hendpoint & Hdeployment).
    rewrite Hkey, Hendpoint, Hdeployment. auto.
  - unfold all_agents, model_configs. repeat constructor; cbn; auto 6.
  - split; [|split; [|split; [|split]]].
    + intros construct run out. apply main_from_start_eq.
    + intros construct run out. apply main_from_start_eq.
    + intros Context construct run out. apply main_from_start_eq.
    + intros construct run out. apply main_from_start_eq.
    + apply library_construct_client_cases.
Qed.

Lemma unset_variables_pass_through_witness :
  MoreSamples.no_deployment !! "AZURE_OPENAI_DEPLOYMENT" = None /\
  Forall (fun cfg => model cfg = None) (model_configs MoreSamples.no_deployment) /\
  BasicAgent.main_from_start MoreSamples.no_deployment (Samples.constant_run "ok")
    (library_construct_client MoreSamples.no_deployment) [] =
  BasicAgent.main MoreSamples.no_deployment (Samples.constant_run "ok") [].
Proof.
  assert (Hdeployment : MoreSamples.no_deployment !! "AZURE_OPENAI_DEPLOYMENT" = None)
    by (vm_compute; reflexivity).
  destruct (unset_variables_pass_through MoreSamples.no_deployment
              (or_intror (or_intror Hdeployment)))
    as (Hfields & _ & Hbasic & _).
  split; [exact Hdeployment|]. split.
  - eapply Forall_impl; [exact Hfields|].
    intros cfg (_ & _ & Hd). exact (Hd Hdeployment).
  - rewrite Hbasic. reflexivity.
Defined.

(** ** The handoff graph *)

(** X19.  The three tutors declare no handoffs of their own, so a chain of
    transfers along declared handoffs that starts at the triage agent has
    at most one step. *)
Lemma triage_chain_length (environ : gmap string string) (path : list Agent) :
  handoff_chain (AgentWithHandoffs.triage_agent environ) path -> length path <= 1.
Proof.
  destruct path as [|b [|c rest]]; cbn; [lia..|].
  intros ([<- | [<- | [<- | []]]] & [] & _).
Qed.

(** * Further properties of the scripts *)

(** ** The arithmetic tool, whatever [eval] does *)

(** X1.  What [except Exception] does not cover leaves the tool: an
    exception that is no instance of [Exception] ([SystemExit],
    [KeyboardInterrupt]), raised by [eval] or by formatting the value, is
    raised by [calculate] to its caller and no text is returned. *)
Theorem calculate_lets_through :
  forall (eval : string -> outcome py_object) (expression : string) (e : exception),
  isinstance_Exception e = false ->
  eval expression = Raised e \/
  (exists obj, eval expression = Returned obj /\ py_format obj = Raised e) ->
  AgentWithTools.calculate eval expression = Raised e.
Proof.
  intros eval expression e He [Heval | ([fmt] & Heval & Hfmt)];
    unfold AgentWithTools.calculate, try_except; rewrite Heval; cbn.
  - by rewrite He.
  - cbn in Hfmt. subst fmt. cbn. by rewrite He.
Qed.

Lemma calculate_lets_through_witness :
  AgentWithTools.calculate MoreSamples.exiting_eval "exit()" = Raised (Exc SystemExit "").
Proof.
  apply (calculate_lets_through MoreSamples.exiting_eval "exit()" (Exc SystemExit ""));
    [reflexivity|]. left. reflexivity.
Defined.

(** X2.  A text [calculate] returns is of one of two shapes, and names the
    expression in both: ["The result of <expression> is <text>"] when
    [eval] returned a value that formatted to [text], or
    ["Error calculating <expression>: <message>"] when [eval] or the
    formatting raised an instance of [Exception] with that message.  The
    two shapes never coincide. *)
Theorem calculate_returned_text :
  forall (eval : string -> outcome py_object) (expression text : string),
  AgentWithTools.calculate eval expression = Returned text ->
  contains text expression /\
  ((exists obj shown,
      eval expression = Returned obj /\ py_format obj = Returned shown /\
      text = "The result of " +:+ expression +:+ " is " +:+ shown) \/
   (exists e,
      isinstance_Exception e = true /\
      (eval expression = Raised e \/
       exists obj, eval expression = Returned obj /\ py_format obj = Raised e) /\
      text = "Error calculating " +:+ expression +:+ ": " +:+ exc_str e)) /\
  (forall a b, "The result of " +:+ a <> "Error calculating " +:+ b).
Proof.
  intros eval expression text. unfold AgentWithTools.calculate, try_except.
  destruct (eval expression) as [[[shown|e]]|e]; cbn.
  - intros [= <-]. split; [apply contains_between|]. split; [|discriminate].
    left. by eexists _, _.
  - destruct (isinstance_Exception e) eqn:He; cbn; [|discriminate].
    intros [= <-]. split; [apply contains_between|]. split; [|discriminate].
    right. exists e. split; [exact He|]. split; [|reflexivity]. right. by eexists.
  - destruct (isinstance_Exception e) eqn:He; cbn; [|discriminate].
    intros [= <-]. split; [apply contains_between|]. split; [|discriminate].
    right. exists e. split; [exact He|]. split; [by left|reflexivity].
Qed.

Lemma calculate_returned_text_witness :
  contains "Error calculating 1 % 0: integer division or modulo by zero" "1 % 0".
Proof.
  refine (proj1 (calculate_returned_text reference_eval "1 % 0" _ _)).
  vm_compute. reflexivity.
Defined.

(** X3.  A value that cannot be formatted is reported like an evaluation
    error: when [eval] returns an object whose formatting raises an
    instance of [Exception], [calculate] returns
    ["Error calculating <expression>: <message>"]. *)
Theorem calculate_format_failure_caught :
  forall (eval : string -> outcome py_object) (expression : string)
    (obj : py_object) (e : exception),
  eval expression = Returned obj ->
  py_format obj = Raised e ->
  isinstance_Exception e = true ->
  AgentWithTools.calculate eval expression =
    Returned ("Error calculating " +:+ expression +:+ ": " +:+ exc_str e).
Proof.
  intros eval expression [fmt] e Heval Hfmt He. cbn in Hfmt. subst fmt.
  unfold AgentWithTools.calculate. rewrite Heval. cbn. by rewrite He.
Qed.

Lemma calculate_format_failure_caught_witness :
  AgentWithTools.calculate MoreSamples.unformattable_eval "object()" =
    Returned "Error calculating object(): unsupported format string".
Proof.
  exact (calculate_format_failure_caught MoreSamples.unformattable_eval "object()"
           _ (Exc TypeError "unsupported format string") eq_refl eq_refl eq_refl).
Defined.

(** ** The stub tools on other dicts *)

(** X5.  The stubs read their declared keys only: adding or changing any
    other key of the dict changes nothing of what they return. *)
Theorem stub_tools_ignore_other_keys :
  (forall (location : gmap string string) (key v : string),
      key <> "city" -> key <> "country" ->
      AgentWithTools.fetch_weather (<[key := v]> location) =
      AgentWithTools.fetch_weather location) /\
  (forall (query : gmap string string) (key v : string),
      key <> "query" ->
      AgentWithTools.search_web (<[key := v]> query) =
      AgentWithTools.search_web query).
Proof.
  unfold AgentWithTools.fetch_weather, AgentWithTools.search_web, subscript.
  split.
  - intros location key v Hcity Hcountry. by rewrite !lookup_insert_ne.
  - intros query key v Hquery. by rewrite lookup_insert_ne.
Qed.

Lemma stub_tools_ignore_other_keys_witness :
  AgentWithTools.fetch_weather MoreSamples.london_with_zip =
  AgentWithTools.fetch_weather Samples.london.
Proof.
  apply (proj1 stub_tools_ignore_other_keys); discriminate.
Defined.

(** ** The guardrail wrappers on failing runs *)

(** X6.  A wrapper has no handler of its own: when the classification run
    raises, the wrapper raises the same exception and builds no guardrail
    output. *)
Theorem guardrail_failure_propagates :
  forall (environ : gmap string string) (Context : Type)
    (Runner_run : forall a : Agent, string -> option Context ->
                  outcome (RunResult (AgentWithGuardrails.final_output_class a)))
    (ctx : AgentWithGuardrails.RunContextWrapper Context) (agent : Agent)
    (input_data : string) (e : exception),
  (Runner_run (AgentWithGuardrails.content_safety_agent environ) input_data
     (AgentWithGuardrails.context Context ctx) = Raised e ->
   AgentWithGuardrails.content_safety_guardrail environ Context Runner_run
     ctx agent input_data = Raised e) /\
  (Runner_run (AgentWithGuardrails.homework_agent environ) input_data
     (AgentWithGuardrails.context Context ctx) = Raised e ->
   AgentWithGuardrails.homework_guardrail environ Context Runner_run
     ctx agent input_data = Raised e).
Proof.
  intros environ Context Runner_run ctx agent input_data e. split; intros Hrun.
  - unfold AgentWithGuardrails.content_safety_guardrail. by rewrite Hrun.
  - unfold AgentWithGuardrails.homework_guardrail. by rewrite Hrun.
Qed.

Lemma guardrail_failure_propagates_witness :
  AgentWithGuardrails.content_safety_guardrail Samples.endpoint_only unit
    (Samples.failing_run MoreSamples.timeout)
    (AgentWithGuardrails.mkRunContextWrapper unit None)
    (AgentWithGuardrails.education_agent Samples.endpoint_only)
    "Can you explain how photosynthesis works?" = Raised MoreSamples.timeout /\
  AgentWithGuardrails.homework_guardrail Samples.endpoint_only unit
    (Samples.failing_run MoreSamples.timeout)
    (AgentWithGuardrails.mkRunContextWrapper unit None)
    (AgentWithGuardrails.education_agent Samples.endpoint_only)
    "Can you explain how photosynthesis works?" = Raised MoreSamples.timeout.
Proof.
  split.
  - exact (proj1 (guardrail_failure_propagates Samples.endpoint_only unit
      (Samples.failing_run MoreSamples.timeout)
      (AgentWithGuardrails.mkRunContextWrapper unit None)
      (AgentWithGuardrails.education_agent Samples.endpoint_only)
      "Can you explain how photosynthesis works?" MoreSamples.timeout) eq_refl).
  - exact (proj2 (guardrail_failure_propagates Samples.endpoint_only unit
      (Samples.failing_run MoreSamples.timeout)
      (AgentWithGuardrails.mkRunContextWrapper unit None)
      (AgentWithGuardrails.education_agent Samples.endpoint_only)
      "Can you explain how photosynthesis works?" MoreSamples.timeout) eq_refl).
Defined.

(** ** Loops *)



(** ** The loops of the four scripts, end to end *)
















(** ** The numbering of the handoff path *)

Lemma combine_seq_lookup {A : Type} (l : list A) (start i : nat) :
  combine (seq start (length l)) l !! i = (fun x => (start + i, x)) <$> l !! i.
Proof.
  revert start i. induction l as [|x l IH]; intros start [|i]; cbn; try reflexivity.
  - by rewrite Nat.add_0_r.
  - rewrite IH. destruct (l !! i); cbn; [|reflexivity]. do 2 f_equal. lia.
Qed.

Lemma map_lookup {A B : Type} (f : A -> B) (l : list A) (i : nat) :
  map f l !! i = f <$> l !! i.
Proof. revert i. induction l as [|x l IH]; intros [|i]; cbn; auto. Qed.

Lemma enumerate_lookup {A : Type} (l : list A) (i : nat) :
  AgentWithHandoffs.enumerate l !! i = (fun x => (i, x)) <$> l !! i.
Proof. apply (combine_seq_lookup l 0 i). Qed.

(** X15.  A result with a non-empty handoff history is reported with one
    line per handoff, in the order of the history and numbered from 1:
    after the answer and the header, line [i] (from 0) is
    ["  <i+1>. <from> â†’ <to>"] with the names of the agents of the
    [i]-th handoff, and nothing follows the last of them. *)
Theorem report_numbers_handoffs :
  forall (result : RunResult string) (history : list Handoff) (out : list string),
  handoff_history result = Some history ->
  history <> [] ->
  length (fst (AgentWithHandoffs.report result out)) = length out + 2 + length history /\
  (forall i h,
      history !! i = Some h ->
      fst (AgentWithHandoffs.report result out) !! (length out + 2 + i) =
        Some ("  " +:+ str_int (Z.of_nat i + 1) +:+ ". "
              +:+ name (from_agent h) +:+ " â†’ " +:+ name (to_agent h))).
Proof.
  intros result history out Hhistory Hne.
  rewrite report_printed, Hhistory. cbn [fst].
  destruct history as [|h0 t]; [by destruct Hne|]. cbn [path_lines]. split.
  - rewrite length_app. cbn [length]. rewrite length_map.
    unfold AgentWithHandoffs.enumerate. rewrite length_combine, length_seq.
    cbn [length]. lia.
  - intros i h Hi.
    match goal with
    | |- (out ++ ?a :: ?b :: ?rest) !! _ = _ =>
        change (out ++ a :: b :: rest) with (out ++ [a; b] ++ rest)
    end.
    rewrite app_assoc, lookup_app_r by (rewrite length_app; cbn [length]; lia).
    replace (length out + 2 + i - length (out ++ [_; _])) with i
      by (rewrite length_app; cbn [length]; lia).
    by rewrite map_lookup, enumerate_lookup, Hi.
Qed.

Lemma report_numbers_handoffs_witness :
  fst (AgentWithHandoffs.report
         (mkRunResult "x = 5" (Some [Samples.to_math; Samples.to_math])) []) !! 3 =
  Some "  2. Education Assistant â†’ Math Tutor".
Proof.
  exact (proj2 (report_numbers_handoffs
                  (mkRunResult "x = 5" (Some [Samples.to_math; Samples.to_math]))
                  [Samples.to_math; Samples.to_math] [] eq_refl
                  ltac:(discriminate))
           1 Samples.to_math eq_refl).
Defined.

(** ** The configuration under changes of the environment *)

(** X16.  The version field is never [None]: a variable
    AZURE_OPENAI_API_VERSION that is set is used as it is, the empty
    string included, and the default stands in only when it is unset. *)
Theorem api_version_set_or_default :
  forall environ : gmap string string,
  Forall (fun cfg =>
      api_version (openai_client cfg) <> None /\
      (forall v, environ !! "AZURE_OPENAI_API_VERSION" = Some v ->
         api_version (openai_client cfg) = Some v))
    (model_configs environ).
Proof.
  intros environ. eapply Forall_impl; [exact (model_config_fields environ)|].
  intros cfg (_ & Hversion & _). rewrite Hversion. split; [discriminate|].
  by intros v ->.
Qed.

Lemma api_version_set_or_default_witness :
  Forall (fun cfg => api_version (openai_client cfg) = Some "")
    (model_configs MoreSamples.empty_version).
Proof.
  eapply Forall_impl; [exact (api_version_set_or_default MoreSamples.empty_version)|].
  intros cfg [_ Hset]. apply Hset. vm_compute. reflexivity.
Defined.

(** X17.  Each of the four variables feeds one field and no other:
    setting AZURE_OPENAI_API_KEY, AZURE_OPENAI_API_VERSION,
    AZURE_OPENAI_ENDPOINT or AZURE_OPENAI_DEPLOYMENT to [v] makes the key,
    the version, the endpoint or the model [v] in every script's
    configuration and leaves its three other fields as they were; setting
    any other variable changes no configuration. *)
Theorem configuration_follows_its_variable :
  forall (environ : gmap string string) (v : string),
  Forall2 (fun cfg' cfg =>
      api_key (openai_client cfg') = Some v /\
      api_version (openai_client cfg') = api_version (openai_client cfg) /\
      azure_endpoint (openai_client cfg') = azure_endpoint (openai_client cfg) /\
      model cfg' = model cfg)
    (model_configs (<["AZURE_OPENAI_API_KEY" := v]> environ)) (model_configs environ) /\
  Forall2 (fun cfg' cfg =>
      api_key (openai_client cfg') = api_key (openai_client cfg) /\
      api_version (openai_client cfg') = Some v /\
      azure_endpoint (openai_client cfg') = azure_endpoint (openai_client cfg) /\
      model cfg' = model cfg)
    (model_configs (<["AZURE_OPENAI_API_VERSION" := v]> environ)) (model_configs environ) /\
  Forall2 (fun cfg' cfg =>
      api_key (openai_client cfg') = api_key (openai_client cfg) /\
      api_version (openai_client cfg') = api_version (openai_client cfg) /\
      azure_endpoint (openai_client cfg') = Some v /\
      model cfg' = model cfg)
    (model_configs (<["AZURE_OPENAI_ENDPOINT" := v]> environ)) (model_configs environ) /\
  Forall2 (fun cfg' cfg =>
      api_key (openai_client cfg') = api_key (openai_client cfg) /\
      api_version (openai_client cfg') = api_version (openai_client cfg) /\
      azure_endpoint (openai_client cfg') = azure_endpoint (openai_client cfg) /\
      model cfg' = Some v)
    (model_configs (<["AZURE_OPENAI_DEPLOYMENT" := v]> environ)) (model_configs environ) /\
  (forall key,
      key <> "AZURE_OPENAI_API_KEY" -> key <> "AZURE_OPENAI_API_VERSION" ->
      key <> "AZURE_OPENAI_ENDPOINT" -> key <> "AZURE_OPENAI_DEPLOYMENT" ->
      model_configs (<[key := v]> environ) = model_configs environ).
Proof.
  intros environ v. rewrite !model_configs_eq. cbn zeta.
  split; [|split; [|split; [|split]]].
  1-4: rewrite lookup_insert_eq, !lookup_insert_ne by done;
       repeat (apply List.Forall2_cons; [by repeat split|]); apply List.Forall2_nil.
  intros key Hkey Hversion Hendpoint Hdeployment.
  rewrite model_configs_eq. cbn zeta. by rewrite !lookup_insert_ne.
Qed.

Lemma configuration_follows_its_variable_witness :
  model_configs (<["HOME" := "/root"]> Samples.endpoint_only) =
  model_configs Samples.endpoint_only.
Proof.
  apply (proj2 (proj2 (proj2 (proj2
    (configuration_follows_its_variable Samples.endpoint_only "/root")))));
    discriminate.
Defined.

(** X18.  From one environment the four scripts build the same
    configuration, and every agent any of them declares holds it. *)
Theorem scripts_share_configuration :
  forall (environ : gmap string string) (cfg cfg' : OpenAIChatCompletionsModel),
  In cfg (model_configs environ) ->
  In cfg' (model_configs environ) ->
  cfg = cfg' /\ Forall (fun a => agent_model a = cfg) (all_agents environ).
Proof.
  intros environ cfg cfg'.
  assert (Hagents : Forall (fun a => In (agent_model a) (model_configs environ))
                      (all_agents environ)).
  { unfold all_agents, model_configs. repeat constructor; cbn; auto 6. }
  revert Hagents. rewrite model_configs_eq. cbn zeta.
  intros Hagents Hin Hin'.
  assert (Hone : forall c, In c (model_configs environ) -> c = cfg).
  { rewrite model_configs_eq. cbn zeta. cbn in Hin |- *. intuition congruence. }
  rewrite <- model_configs_eq in Hin'. split; [symmetry; by apply Hone|].
  rewrite <- model_configs_eq in Hagents.
  eapply Forall_impl; [exact Hagents|]. intros a Ha. by apply Hone.
Qed.

Lemma scripts_share_configuration_witness :
  agent_model (BasicAgent.agent Samples.endpoint_only) =
    AgentWithHandoffs.model_config Samples.endpoint_only /\
  Forall (fun a => agent_model a = agent_model (BasicAgent.agent Samples.endpoint_only))
    (all_agents Samples.endpoint_only).
Proof.
  apply scripts_share_configuration; cbn; auto.
Defined.

(** ** The declared handoffs *)

Lemma triage_chain_length_witness :
  length [AgentWithHandoffs.math_agent Samples.endpoint_only] <= 1.
Proof.
  apply (triage_chain_length Samples.endpoint_only). cbn. auto.
Defined.
